(** * advanced_md_analysis: the .xvg reader and the statistical summarizer

    A shallow embedding of [advanced_md_analysis.py]: the reader
    [read_xvg], the two functions [plot_with_stats] and [create_box_plots]
    that summarize the series, the drivers [create_full_analysis] and
    [create_summary_statistics] and the main block, with the properties the
    specification states about them and further properties of the code.

    Conventions of the embedding.
    - A Python [str] is a [string]; every [ascii] stands for the code point
      of the same number (0..255).
    - A text file is the list of lines that iterating over the open file
      yields; a path that does not exist is [None] in the file system.
    - A Python [float] is an IEEE 754 binary64 number ([spec_float] with
      precision 53 and maximal exponent 1024).  The pipeline itself is written
      over an interface [Arith], so that the same code can also be read in
      exact rational arithmetic.
    - Exceptions are values of [exn]; a call that can raise returns a
      [result].  The calls made on the matplotlib axes and on [scipy.stats]
      are recorded, in order, in a log that survives an exception.
    - [np.array], column selection, slicing and [np.mean] are modelled on
      lists, [np.mean] with the order in which NumPy adds the entries;
      [scipy.stats.ttest_ind] and the behaviour of [np.array] on rows of
      different lengths, which changed with NumPy 1.24, are parameters.
    - The drivers act on the current figure of pyplot, the images saved and
      the lines printed.  The calls of matplotlib are taken to succeed;
      [print] raises for a character that [sys.stdout] cannot encode. *)

From Stdlib Require Import ZArith List String Ascii Bool Arith Lia QArith.
From Stdlib Require Import Floats.SpecFloat.
Import ListNotations.

Close Scope Q_scope.
Local Open Scope string_scope.
Local Open Scope list_scope.
Local Open Scope nat_scope.

(* ===================================================================== *)
(** ** Python strings *)
(* ===================================================================== *)

Module PyStr.

(** [str.isspace] on one character, for code points below 256. *)
Definition is_space (c : ascii) : bool :=
  let n := nat_of_ascii c in
  ((9 <=? n) && (n <=? 13)) || ((28 <=? n) && (n <=? 32))
  || (n =? 133) || (n =? 160).

Fixpoint lstrip (s : string) : string :=
  match s with
  | EmptyString => EmptyString
  | String c s' => if is_space c then lstrip s' else s
  end.

Fixpoint rstrip (s : string) : string :=
  match s with
  | EmptyString => EmptyString
  | String c s' =>
      match rstrip s' with
      | EmptyString => if is_space c then EmptyString else String c EmptyString
      | r => String c r
      end
  end.

(** [s.strip()] *)
Definition strip (s : string) : string := rstrip (lstrip s).

(** [s.startswith(p)] *)
Fixpoint startswith (p s : string) : bool :=
  match p with
  | EmptyString => true
  | String a p' =>
      match s with
      | EmptyString => false
      | String b s' => Ascii.eqb a b && startswith p' s'
      end
  end.

(** [needle in hay] *)
Fixpoint contains (needle hay : string) : bool :=
  match hay with
  | EmptyString => startswith needle EmptyString
  | String _ hay' => startswith needle hay || contains needle hay'
  end.

Definition lower_char (c : ascii) : ascii :=
  let n := nat_of_ascii c in
  if ((65 <=? n) && (n <=? 90))
     || ((192 <=? n) && (n <=? 222) && negb (n =? 215))
  then ascii_of_nat (n + 32) else c.

(** [s.lower()] *)
Fixpoint lower (s : string) : string :=
  match s with
  | EmptyString => EmptyString
  | String c s' => String (lower_char c) (lower s')
  end.

(** [s.split(sep)] for a one-character separator: never empty. *)
Fixpoint split_char (sep : ascii) (s : string) : list string :=
  match s with
  | EmptyString => [EmptyString]
  | String c s' =>
      if Ascii.eqb c sep then EmptyString :: split_char sep s'
      else match split_char sep s' with
           | piece :: pieces => String c piece :: pieces
           | [] => [String c EmptyString]
           end
  end.

(** [s.split()]: the maximal runs of characters that are not white space. *)
Fixpoint split (s : string) : list string :=
  match s with
  | EmptyString => []
  | String c s' =>
      if is_space c then split s'
      else match s' with
           | EmptyString => [String c EmptyString]
           | String d _ =>
               if is_space d then String c EmptyString :: split s'
               else match split s' with
                    | tok :: toks => String c tok :: toks
                    | [] => [String c EmptyString]
                    end
           end
  end.

(** The text before the first [sep], and the text after it when there is
    one. *)
Fixpoint before (sep : ascii) (s : string) : string :=
  match s with
  | EmptyString => EmptyString
  | String c s' =>
      if Ascii.eqb c sep then EmptyString else String c (before sep s')
  end.

Fixpoint after (sep : ascii) (s : string) : option string :=
  match s with
  | EmptyString => None
  | String c s' => if Ascii.eqb c sep then Some s' else after sep s'
  end.

Fixpoint mem (c : ascii) (s : string) : bool :=
  match s with
  | EmptyString => false
  | String d s' => Ascii.eqb d c || mem c s'
  end.

(** The double quote character. *)
Definition dquote : ascii := "034"%char.

End PyStr.

(* ===================================================================== *)
(** ** Numbers *)
(* ===================================================================== *)

(** The arithmetic the pipeline uses on the entries of an array. *)
Class Arith (F : Type) := {
  dec : Z -> Z -> F;          (* the number m * 10^e, as a literal denotes it *)
  add : F -> F -> F;
  mul : F -> F -> F;
  truediv : F -> F -> F;
  lt : F -> F -> bool
}.

(** The conversion of a Python [int] that meets a float in an operation. *)
Definition of_int {F} `{Arith F} (z : Z) : F := dec z 0.

(** *** binary64 *)

Module B64.

Definition prec : Z := 53.
Definition emax : Z := 1024.

Definition t := spec_float.

(** The binary64 nearest (ties to even) to [m * 10^e], for [0 <= m], with
    sign [neg]: what a correctly rounded decimal-to-binary conversion
    returns. *)
Definition of_decimal (neg : bool) (m e : Z) : t :=
  match m with
  | Zpos p =>
      match e with
      | Zneg _ =>
          let '(q, e', l) :=
            SFdiv_core_binary prec emax (Zpos p) 0 (Z.pow 10 (Z.opp e)) 0 in
          binary_round_aux prec emax neg q e' l
      | _ =>
          match (Zpos p * Z.pow 10 e)%Z with
          | Zpos q => binary_round prec emax neg q 0
          | _ => S754_zero neg
          end
      end
  | _ => S754_zero neg
  end.

Definition of_signed_decimal (m e : Z) : t :=
  of_decimal (m <? 0)%Z (Z.abs m) e.

#[global] Instance arith : Arith t := {
  dec := of_signed_decimal;
  add := SFadd prec emax;
  mul := SFmul prec emax;
  truediv := SFdiv prec emax;
  lt := SFltb
}.

(** **** The builtin [float(str)]

    The grammar of the language reference:
<<
    floatvalue  ::= [sign] (floatnumber | "inf" | "infinity" | "nan")
    floatnumber ::= number [exponent]
    number      ::= [digitpart] "." digitpart | digitpart ["."]
    exponent    ::= ("e" | "E") [sign] digitpart
    digitpart   ::= digit (["_"] digit)*
>>
    The tokens handed to it by the reader hold no white space.  [None]
    stands for [ValueError]. *)

Definition is_digit (c : ascii) : bool :=
  let n := nat_of_ascii c in (48 <=? n) && (n <=? 57).

Definition digit_val (c : ascii) : Z := Z.of_nat (nat_of_ascii c - 48).

(** [(["_"] digit)*], greedy: the value read so far, the number of digits
    read so far, and what is left. *)
Fixpoint digits_tail (s : string) (acc cnt : Z) : Z * Z * string :=
  match s with
  | String c s' =>
      if is_digit c then digits_tail s' (10 * acc + digit_val c)%Z (cnt + 1)%Z
      else if Ascii.eqb c "_"%char then
        match s' with
        | String d s'' =>
            if is_digit d
            then digits_tail s'' (10 * acc + digit_val d)%Z (cnt + 1)%Z
            else (acc, cnt, s)
        | EmptyString => (acc, cnt, s)
        end
      else (acc, cnt, s)
  | EmptyString => (acc, cnt, s)
  end.

Definition digitpart (s : string) : option (Z * Z * string) :=
  match s with
  | String c s' =>
      if is_digit c then Some (digits_tail s' (digit_val c) 1%Z) else None
  | EmptyString => None
  end.

(** [number]: the mantissa, the decimal exponent and what is left. *)
Definition number (s : string) : option (Z * Z * string) :=
  match digitpart s with
  | Some (ip, _, rest) =>
      match rest with
      | String "." rest' =>
          match digitpart rest' with
          | Some (fp, fcnt, rest'') =>
              Some ((ip * Z.pow 10 fcnt + fp)%Z, Z.opp fcnt, rest'')
          | None => Some (ip, 0%Z, rest')
          end
      | _ => Some (ip, 0%Z, rest)
      end
  | None =>
      match s with
      | String "." rest' =>
          match digitpart rest' with
          | Some (fp, fcnt, rest'') => Some (fp, Z.opp fcnt, rest'')
          | None => None
          end
      | _ => None
      end
  end.

(** An optional sign: whether it is a minus, and what is left. *)
Definition sign (s : string) : bool * string :=
  match s with
  | String "+" s' => (false, s')
  | String "-" s' => (true, s')
  | _ => (false, s)
  end.

(** [[exponent]] up to the end of the string. *)
Definition exponent (s : string) : option Z :=
  match s with
  | EmptyString => Some 0%Z
  | String c s' =>
      if Ascii.eqb c "e"%char || Ascii.eqb c "E"%char then
        let '(neg, s'') := sign s' in
        match digitpart s'' with
        | Some (v, _, EmptyString) => Some (if neg then Z.opp v else v)
        | _ => None
        end
      else None
  end.

Definition float (s : string) : option t :=
  let '(neg, body) := sign s in
  let word := PyStr.lower body in
  if String.eqb word "inf" || String.eqb word "infinity"
  then Some (S754_infinity neg)
  else if String.eqb word "nan" then Some S754_nan
  else
    match number body with
    | Some (m, e10, rest) =>
        match exponent rest with
        | Some e => Some (of_decimal neg m (e10 + e))
        | None => None
        end
    | None => None
    end.

End B64.

(** *** Exact rational arithmetic *)

Module Exact.

Definition of_decimal (m e : Z) : Q :=
  match e with
  | Zneg _ => inject_Z m / inject_Z (Z.pow 10 (Z.opp e))
  | _ => inject_Z (m * Z.pow 10 e)
  end.

#[global] Instance arith : Arith Q := {
  dec := of_decimal;
  add := Qplus;
  mul := Qmult;
  truediv := Qdiv;
  lt := fun x y => negb (Qle_bool y x)
}.

End Exact.

(* ===================================================================== *)
(** ** Exceptions *)
(* ===================================================================== *)

Inductive exn := IndexError | KeyError | ValueError | UnicodeEncodeError.

Inductive result (A : Type) :=
| Ok (a : A)
| Raise (e : exn).
Arguments Ok {A} a.
Arguments Raise {A} e.

Definition result_bind {A B} (r : result A) (k : A -> result B) : result B :=
  match r with
  | Ok a => k a
  | Raise e => Raise e
  end.

(* ===================================================================== *)
(** ** The part of numpy the program uses *)
(* ===================================================================== *)

(** What [np.array] does with rows of different lengths depends on the
    installed NumPy: before 1.24 it builds a one-dimensional array of
    Python lists (with a deprecation warning), from 1.24 on it raises
    [ValueError]. *)
Inductive numpy_version := before_1_24 | since_1_24.

(** The arrays [np.array] can return for a list of lists of floats. *)
Inductive ndarray (F : Type) :=
| Vec (xs : list F)                          (* shape (n,), float64 *)
| Mat (ncols : nat) (rows : list (list F))   (* shape (n, ncols), float64 *)
| ObjVec (rows : list (list F)).             (* shape (n,), dtype object *)
Arguments Vec {F} xs.
Arguments Mat {F} ncols rows.
Arguments ObjVec {F} rows.

Section Numpy.
Context {F : Type} `{Arith F}.

Definition rectangular (rows : list (list F)) : bool :=
  match rows with
  | [] => true
  | r :: rs => forallb (fun r' => List.length r' =? List.length r) rs
  end.

(** [np.array(rows)] *)
Definition np_array (v : numpy_version) (rows : list (list F))
  : result (ndarray F) :=
  match rows with
  | [] => Ok (Vec [])
  | r :: rs =>
      if rectangular rows then Ok (Mat (List.length r) rows)
      else match v with
           | before_1_24 => Ok (ObjVec rows)
           | since_1_24 => Raise ValueError
           end
  end.

(** [len(a)], the first entry of the shape. *)
Definition nrows (a : ndarray F) : nat :=
  match a with
  | Vec xs => List.length xs
  | Mat _ rows => List.length rows
  | ObjVec rows => List.length rows
  end.

(** [a.shape] *)
Definition shape (a : ndarray F) : list nat :=
  match a with
  | Vec xs => [List.length xs]
  | Mat ncols rows => [List.length rows; ncols]
  | ObjVec rows => [List.length rows]
  end.

(** [a[:, j]]: an array of one dimension has too many indices. *)
Definition column (a : ndarray F) (j : nat) : result (list F) :=
  match a with
  | Mat ncols rows =>
      if j <? ncols then Ok (map (fun r => nth j r (of_int 0)) rows)
      else Raise IndexError
  | Vec _ | ObjVec _ => Raise IndexError
  end.

(** [y * c] and [x / d] with a scalar. *)
Definition scale (y : list F) (c : F) : list F := map (fun v => mul v c) y.
Definition divide (x : list F) (d : F) : list F := map (fun v => truediv v d) x.

(** [y[len(y)//2:]] *)
Definition second_half {A} (y : list A) : list A := skipn (List.length y / 2) y.

(** [np.mean(w)] for a contiguous float64 array [w] is [np.add.reduce(w)]
    divided by the number of entries.

    The reduction takes the array through NumPy's buffer of [NPY_BUFSIZE]
    entries ([np.getbufsize()], 8192): it starts from 0.0 and adds to it,
    one bufferful of entries after the other, what the inner loop of [add]
    returns for the bufferful.  An array of at most [NPY_BUFSIZE] entries
    is one bufferful.  (The cut of a longer array belongs to NumPy's
    iterator and need not be the same in every version; the model follows
    the versions in which every bufferful but the last is full.)

    The inner loop returns NumPy's pairwise sum ([DOUBLE_pairwise_sum],
    loops_utils.h.src):

    - fewer than 8 entries are added in index order, starting from 0.0
      (recent versions start this loop from -0.0, which changes no result
      of the reduction, the sum being added to a positive zero or to the
      sum of an earlier bufferful);
    - up to [PW_BLOCKSIZE] entries are added in eight accumulators, entry
      [i] going to accumulator [i mod 8] as long as a block of eight
      entries is left; the accumulators are then added as
      [((r0 + r1) + (r2 + r3)) + ((r4 + r5) + (r6 + r7))], and the entries
      that are left are added to that in index order;
    - a longer array is cut in two at [n / 2] rounded down to a multiple of
      8, and the sums of the two parts are added. *)
Definition PW_BLOCKSIZE : nat := 128.
Definition NPY_BUFSIZE : nat := 64 * PW_BLOCKSIZE.

(** The loop on the eight accumulators, their sum and the loop on the
    entries that are left. *)
Fixpoint accumulators (r0 r1 r2 r3 r4 r5 r6 r7 : F) (a : list F) : F :=
  match a with
  | a0 :: a1 :: a2 :: a3 :: a4 :: a5 :: a6 :: a7 :: a' =>
      accumulators (add r0 a0) (add r1 a1) (add r2 a2) (add r3 a3)
        (add r4 a4) (add r5 a5) (add r6 a6) (add r7 a7) a'
  | _ =>
      fold_left add a
        (add (add (add r0 r1) (add r2 r3)) (add (add r4 r5) (add r6 r7)))
  end.

(** The first two cases of the pairwise sum: at most [PW_BLOCKSIZE]
    entries. *)
Definition block_sum (a : list F) : F :=
  match a with
  | a0 :: a1 :: a2 :: a3 :: a4 :: a5 :: a6 :: a7 :: a' =>
      accumulators a0 a1 a2 a3 a4 a5 a6 a7 a'
  | _ => fold_left add a (of_int 0)
  end.

(** The pairwise sum, with a bound [depth] on the nesting of its calls; a
    bound of [len(a)] is never reached ([pairwise_sum_depth] below). *)
Fixpoint pairwise_sum (depth : nat) (a : list F) : F :=
  let n := List.length a in
  if n <=? PW_BLOCKSIZE then block_sum a
  else
    match depth with
    | S depth' =>
        let n2 := n / 2 - (n / 2) mod 8 in
        add (pairwise_sum depth' (firstn n2 a))
            (pairwise_sum depth' (skipn n2 a))
    | 0 => block_sum a
    end.

(** The reduction of the entries [w] that are left, [out] being the sum of
    the bufferfuls before them; [turns] bounds the number of bufferfuls, and
    a bound of [len(w)] is never reached ([np_sum_one_pass] and
    [np_sum_exact] below). *)
Fixpoint reduce (turns : nat) (out : F) (w : list F) : F :=
  match turns, w with
  | S turns', _ :: _ =>
      let buffer := firstn NPY_BUFSIZE w in
      reduce turns' (add out (pairwise_sum (List.length buffer) buffer))
        (skipn NPY_BUFSIZE w)
  | _, _ => out
  end.

Definition np_sum (w : list F) : F := reduce (List.length w) (of_int 0) w.
Definition np_mean (w : list F) : F :=
  truediv (np_sum w) (of_int (Z.of_nat (List.length w))).

End Numpy.

(* ===================================================================== *)
(** ** read_xvg *)
(* ===================================================================== *)

Record Metadata := {
  title : string;
  xlabel : string;
  ylabel : string
}.

Definition set_title (m : Metadata) (v : string) : Metadata :=
  {| title := v; xlabel := xlabel m; ylabel := ylabel m |}.
Definition set_xlabel (m : Metadata) (v : string) : Metadata :=
  {| title := title m; xlabel := v; ylabel := ylabel m |}.
Definition set_ylabel (m : Metadata) (v : string) : Metadata :=
  {| title := title m; xlabel := xlabel m; ylabel := v |}.

Section Reader.
Context {F : Type} `{Arith F}.
(** The builtin [float] on a string; [None] is [ValueError]. *)
Variable float : string -> option F.

(** [[float(x) for x in tokens]]: the first token that does not parse raises
    [ValueError]. *)
Fixpoint floats (tokens : list string) : option (list F) :=
  match tokens with
  | [] => Some []
  | x :: tokens' =>
      match float x with
      | Some v =>
          match floats tokens' with
          | Some vs => Some (v :: vs)
          | None => None
          end
      | None => None
      end
  end.

(** The second piece of the line split at the double quotes; [None] is the
    [IndexError] that the bare [except] swallows. *)
Definition quoted (line : string) : option string :=
  nth_error (PyStr.split_char PyStr.dquote line) 1.

Definition annotation (metadata : Metadata) (line : string) : Metadata :=
  let low := PyStr.lower line in
  if PyStr.contains "title" low then
    match quoted line with
    | Some v => set_title metadata v
    | None => metadata
    end
  else if PyStr.contains "xaxis" low && PyStr.contains "label" low then
    match quoted line with
    | Some v => set_xlabel metadata v
    | None => metadata
    end
  else if PyStr.contains "yaxis" low && PyStr.contains "label" low then
    match quoted line with
    | Some v => set_ylabel metadata v
    | None => metadata
    end
  else metadata.

(** One turn of the loop over the lines of the file. *)
Definition read_line (st : list (list F) * Metadata) (raw : string)
  : list (list F) * Metadata :=
  let '(data_lines, metadata) := st in
  let line := PyStr.strip raw in
  if String.eqb line "" || PyStr.startswith "#" line then st
  else if PyStr.startswith "@" line then (data_lines, annotation metadata line)
  else
    match floats (PyStr.split line) with
    | Some values => (data_lines ++ [values], metadata)
    | None => st
    end.

Definition empty_metadata : Metadata :=
  {| title := ""; xlabel := ""; ylabel := "" |}.

(** The state of [data_lines] and [metadata] when the loop ends. *)
Definition read_lines (lines : list string) : list (list F) * Metadata :=
  fold_left read_line lines ([], empty_metadata).

Definition read_xvg (v : numpy_version) (lines : list string)
  : result (ndarray F * Metadata) :=
  let '(data_lines, metadata) := read_lines lines in
  result_bind (np_array v data_lines) (fun a => Ok (a, metadata)).

(** *** The vocabulary of the statements about the reader *)

Definition parses (x : string) : bool :=
  match float x with Some _ => true | None => false end.

(** A line that gives a row, in the words of the specification: not empty
    once stripped, not a comment, not an annotation, and every token parses
    as a float. *)
Definition numeric_line (raw : string) : bool :=
  let line := PyStr.strip raw in
  negb (String.eqb line "") && negb (PyStr.startswith "#" line)
  && negb (PyStr.startswith "@" line)
  && forallb parses (PyStr.split line).

(** The number of tokens of a line. *)
Definition width (raw : string) : nat :=
  List.length (PyStr.split (PyStr.strip raw)).

(** A well-formed file: its numeric lines all have the same number of
    tokens. *)
Definition well_formed (lines : list string) : bool :=
  match filter numeric_line lines with
  | [] => true
  | l :: ls => forallb (fun l' => width l' =? width l) ls
  end.

(** [row] is the row that the line [raw] parses to. *)
Definition row_of (raw : string) (row : list F) : Prop :=
  floats (PyStr.split (PyStr.strip raw)) = Some row.

(** The value an annotation line carries: [field := v] stands for the
    assignment to the field that the keys on the line select. *)
Definition assigned (metadata : Metadata) (line v : string) : Metadata :=
  let low := PyStr.lower line in
  if PyStr.contains "title" low then set_title metadata v
  else if PyStr.contains "xaxis" low && PyStr.contains "label" low
  then set_xlabel metadata v
  else if PyStr.contains "yaxis" low && PyStr.contains "label" low
  then set_ylabel metadata v
  else metadata.

End Reader.

(* ===================================================================== *)
(** ** The calls on the axes and on scipy, and the monad that logs them *)
(* ===================================================================== *)

(** A call the summarizer makes on its [ax] argument, on a patch of the box
    plot, or on [scipy.stats], with the computed values it passes.  The
    formatting of numbers into the text boxes is left out: a text call
    carries the numbers it prints. *)
Inductive call (F : Type) :=
| ax_plot (x y : list F) (label color : string)
| ax_axhline (mean_y : F) (color : string)
| ax_set_xlabel (s : string)
| ax_set_ylabel (s : string)
| ax_legend
| ax_grid
| ax_set_title (s : string)
| ax_text_means (all_means : list (string * F))
| ax_boxplot (data_list : list (list F)) (labels_list : list string)
| patch_set_facecolor (box : nat) (color : string)
| patch_set_alpha (box : nat)
| stats_ttest_ind (a b : list F)
| ax_text_p_value (p_val : F) (facecolor : string).
Arguments ax_plot {F} x y label color.
Arguments ax_axhline {F} mean_y color.
Arguments ax_set_xlabel {F} s.
Arguments ax_set_ylabel {F} s.
Arguments ax_legend {F}.
Arguments ax_grid {F}.
Arguments ax_set_title {F} s.
Arguments ax_text_means {F} all_means.
Arguments ax_boxplot {F} data_list labels_list.
Arguments patch_set_facecolor {F} box color.
Arguments patch_set_alpha {F} box.
Arguments stats_ttest_ind {F} a b.
Arguments ax_text_p_value {F} p_val facecolor.

(** A computation that appends to the log of calls and may raise; the log
    written before an exception stays. *)
Definition M (F A : Type) : Type := list (call F) -> result A * list (call F).

Definition ret {F A} (a : A) : M F A := fun log => (Ok a, log).

Definition bind {F A B} (m : M F A) (k : A -> M F B) : M F B :=
  fun log =>
    match m log with
    | (Ok a, log') => k a log'
    | (Raise e, log') => (Raise e, log')
    end.

Definition lift {F A} (r : result A) : M F A := fun log => (r, log).

Definition do_call {F} (c : call F) : M F unit :=
  fun log => (Ok tt, log ++ [c]).

Declare Scope py_scope.
Delimit Scope py_scope with py.
Notation "x <- m ;; k" := (bind m (fun x => k))
  (at level 61, m at next level, right associativity) : py_scope.
Notation "m ;; k" := (bind m (fun _ => k))
  (at level 61, right associativity) : py_scope.

(** [for x in xs: body(x)] *)
Fixpoint for_each {F A} (xs : list A) (body : A -> M F unit) : M F unit :=
  match xs with
  | [] => ret tt
  | x :: xs' => bind (body x) (fun _ => for_each xs' body)
  end.

(* ===================================================================== *)
(** ** The summarizer *)
(* ===================================================================== *)

Definition COLORS : list (string * string) :=
  [("apo", "#2E86AB"); ("test", "#A23B72"); ("standard", "#F18F01")].

Definition LABELS : list (string * string) :=
  [("apo", "Apo"); ("test", "Berberine"); ("standard", "Acarbose")].

(** [d[key]] *)
Fixpoint getitem (d : list (string * string)) (key : string) : result string :=
  match d with
  | [] => Raise KeyError
  | (k, v) :: d' => if String.eqb k key then Ok v else getitem d' key
  end.

(** [xs[i]] *)
Definition index {A} (xs : list A) (i : nat) : result A :=
  match nth_error xs i with
  | Some x => Ok x
  | None => Raise IndexError
  end.

Section Summarizer.
Context {F : Type} `{Arith F}.
Variable float : string -> option F.
Variable numpy : numpy_version.
(** [scipy.stats.ttest_ind(a, b)] with its defaults: the statistic and the
    two-sided p-value. *)
Variable ttest_ind : list F -> list F -> F * F.
(** The files: the lines of the file at a path, [None] when
    [filepath.exists()] is false. *)
Variable fs : string -> option (list string).

Local Open Scope py_scope.

(** *** plot_with_stats *)

(** The body of the loop for one item of [files_dict]. *)
Definition plot_series (convert_factor : F) (time_ns : bool)
    (all_means : list (string * F)) (item : string * string)
  : M F (list (string * F)) :=
  let '(key, filepath) := item in
  match fs filepath with
  | None => ret all_means
  | Some lines =>
      r <- lift (read_xvg float numpy lines) ;;
      let data := fst r in
      x <- lift (if time_ns
                 then result_bind (column data 0)
                        (fun c => Ok (divide c (of_int 1000)))
                 else column data 0) ;;
      col <- lift (column data 1) ;;
      let y := scale col convert_factor in
      label <- lift (getitem LABELS key) ;;
      color <- lift (getitem COLORS key) ;;
      do_call (ax_plot x y label color) ;;
      let mean_y := np_mean (second_half y) in
      do_call (ax_axhline mean_y color) ;;
      ret (all_means ++ [(label, mean_y)])
  end.

Fixpoint plot_loop (convert_factor : F) (time_ns : bool)
    (items : list (string * string)) (all_means : list (string * F))
  : M F (list (string * F)) :=
  match items with
  | [] => ret all_means
  | item :: items' =>
      all_means' <- plot_series convert_factor time_ns all_means item ;;
      plot_loop convert_factor time_ns items' all_means'
  end.

Definition plot_with_stats (files_dict : list (string * string))
    (ylabel title : string) (convert_factor : F) (time_ns : bool)
  : M F unit :=
  all_means <- plot_loop convert_factor time_ns files_dict [] ;;
  do_call (ax_set_xlabel (if time_ns then "Time (ns)" else "Residue")) ;;
  do_call (ax_set_ylabel ylabel) ;;
  do_call ax_legend ;;
  do_call ax_grid ;;
  do_call (ax_set_title title) ;;
  match all_means with
  | [] => ret tt
  | _ :: _ => do_call (ax_text_means all_means)
  end.

(** *** create_box_plots *)

(** The three lists the loop fills. *)
Record Lists := {
  data_list : list (list F);
  labels_list : list string;
  colors_list : list string
}.

Definition box_series (convert_factor : F) (st : Lists)
    (item : string * string) : M F Lists :=
  let '(key, filepath) := item in
  match fs filepath with
  | None => ret st
  | Some lines =>
      r <- lift (read_xvg float numpy lines) ;;
      let data := fst r in
      col <- lift (column data 1) ;;
      let values := scale col convert_factor in
      let eq_values := second_half values in
      label <- lift (getitem LABELS key) ;;
      color <- lift (getitem COLORS key) ;;
      ret {| data_list := data_list st ++ [eq_values];
             labels_list := labels_list st ++ [label];
             colors_list := colors_list st ++ [color] |}
  end.

Fixpoint box_loop (convert_factor : F) (items : list (string * string))
    (st : Lists) : M F Lists :=
  match items with
  | [] => ret st
  | item :: items' =>
      st' <- box_series convert_factor st item ;;
      box_loop convert_factor items' st'
  end.

(** The significance test of the first two entries of [data_list]. *)
Definition significance (data_list : list (list F)) : M F unit :=
  if 2 <=? List.length data_list then
    if 2 <=? List.length data_list then
      a <- lift (index data_list 1) ;;
      b <- lift (index data_list 0) ;;
      do_call (stats_ttest_ind a b) ;;
      let p_val := snd (ttest_ind a b) in
      do_call (ax_text_p_value p_val
                 (if lt p_val (dec 5 (-2)) then "yellow" else "white"))
    else ret tt
  else ret tt.

Definition create_box_plots (param_name : string)
    (files_dict : list (string * string)) (ylabel : string)
    (convert_factor : F) : M F unit :=
  st <- box_loop convert_factor files_dict
          {| data_list := []; labels_list := []; colors_list := [] |} ;;
  match data_list st with
  | [] => ret tt
  | _ :: _ =>
      do_call (ax_boxplot (data_list st) (labels_list st)) ;;
      for_each (combine (seq 0 (List.length (data_list st))) (colors_list st))
        (fun pc => do_call (patch_set_facecolor (fst pc) (snd pc)) ;;
                   do_call (patch_set_alpha (fst pc))) ;;
      significance (data_list st) ;;
      do_call (ax_set_ylabel ylabel) ;;
      do_call ax_grid ;;
      do_call (ax_set_title (String.append param_name " Distribution"))
  end.

End Summarizer.
Arguments Lists F : clear implicits.

(* ===================================================================== *)
(** ** The vocabulary of the statements about the summarizer *)
(* ===================================================================== *)

Section Logged.
Context {F : Type}.

(** [m] returns [a] after making exactly the calls [calls]. *)
Definition emits {A} (m : M F A) (a : A) (calls : list (call F)) : Prop :=
  forall log, m log = (Ok a, log ++ calls).

(** [m] raises [e] after making exactly the calls [calls]. *)
Definition raises {A} (m : M F A) (e : exn) (calls : list (call F)) : Prop :=
  forall log, m log = (Raise e, log ++ calls).

Definition is_ttest (c : call F) : bool :=
  match c with
  | stats_ttest_ind _ _ => true
  | _ => false
  end.

Definition is_p_value (c : call F) : bool :=
  match c with
  | ax_text_p_value _ _ => true
  | _ => false
  end.

End Logged.

Section SummarizerTerms.
Context {F : Type} `{Arith F}.
Variable float : string -> option F.
Variable numpy : numpy_version.
Variable ttest_ind : list F -> list F -> F * F.
Variable fs : string -> option (list string).

(** The series of an item of [files_dict] is present when its file
    exists. *)
Definition present (item : string * string) : bool :=
  match fs (snd item) with
  | Some _ => true
  | None => false
  end.

(** What the loops read for a present series, when nothing raises: the two
    columns of the table, the label and the colour of the key. *)
Definition series (item : string * string)
  : option (list F * list F * string * string) :=
  match fs (snd item) with
  | None => None
  | Some lines =>
      match read_xvg float numpy lines with
      | Ok (data, _) =>
          match column data 0, column data 1,
                getitem LABELS (fst item), getitem COLORS (fst item) with
          | Ok x, Ok y, Ok label, Ok color => Some (x, y, label, color)
          | _, _, _, _ => None
          end
      | Raise _ => None
      end
  end.

(** An item is sound when its series is absent or can be read. *)
Definition sound (item : string * string) : bool :=
  negb (present item)
  || match series item with Some _ => true | None => false end.

(** The trailing mean of a series, as [plot_with_stats] computes it. *)
Definition trailing_mean (convert_factor : F) (y : list F) : F :=
  np_mean (second_half (scale y convert_factor)).

(** The calls of one turn of the loop of [plot_with_stats]. *)
Definition plot_calls (convert_factor : F) (time_ns : bool)
    (item : string * string) : list (call F) :=
  match series item with
  | Some (x, y, label, color) =>
      [ax_plot (if time_ns then divide x (of_int 1000) else x)
         (scale y convert_factor) label color;
       ax_axhline (trailing_mean convert_factor y) color]
  | None => []
  end.

Definition means_of (convert_factor : F) (item : string * string)
  : list (string * F) :=
  match series item with
  | Some (_, y, label, _) => [(label, trailing_mean convert_factor y)]
  | None => []
  end.

(** What one turn of the loop of [create_box_plots] appends. *)
Definition windows_of (convert_factor : F) (item : string * string)
  : list (list F) :=
  match series item with
  | Some (_, y, _, _) => [second_half (scale y convert_factor)]
  | None => []
  end.

Definition labels_of (item : string * string) : list string :=
  match series item with
  | Some (_, _, label, _) => [label]
  | None => []
  end.

Definition colors_of (item : string * string) : list string :=
  match series item with
  | Some (_, _, _, color) => [color]
  | None => []
  end.

(** The calls of the significance test on [data_list]. *)
Definition significance_calls (data_list : list (list F)) : list (call F) :=
  match data_list with
  | b :: a :: _ =>
      [stats_ttest_ind a b;
       ax_text_p_value (snd (ttest_ind a b))
         (if lt (snd (ttest_ind a b)) (dec 5 (-2)) then "yellow" else "white")]
  | _ => []
  end.

Definition patch_calls (pc : nat * string) : list (call F) :=
  [patch_set_facecolor (fst pc) (snd pc); patch_set_alpha (fst pc)].

Definition layout_calls (time_ns : bool) (ylabel title : string)
  : list (call F) :=
  [ax_set_xlabel (if time_ns then "Time (ns)" else "Residue");
   ax_set_ylabel ylabel; ax_legend; ax_grid; ax_set_title title].

(** The calls of [plot_with_stats] on sound input. *)
Definition plot_log (files_dict : list (string * string))
    (ylabel title : string) (cf : F) (time_ns : bool) : list (call F) :=
  flat_map (plot_calls cf time_ns) files_dict
  ++ layout_calls time_ns ylabel title
  ++ match flat_map (means_of cf) files_dict with
     | [] => []
     | all_means => [ax_text_means all_means]
     end.

(** The calls of [create_box_plots] on sound input. *)
Definition box_log (param_name : string) (files_dict : list (string * string))
    (ylabel : string) (cf : F) : list (call F) :=
  let ws := flat_map (windows_of cf) files_dict in
  match ws with
  | [] => []
  | _ :: _ =>
      ax_boxplot ws (flat_map labels_of files_dict)
      :: flat_map patch_calls
           (combine (seq 0 (List.length ws)) (flat_map colors_of files_dict))
      ++ significance_calls ws
      ++ [ax_set_ylabel ylabel; ax_grid;
          ax_set_title (String.append param_name " Distribution")]
  end.

End SummarizerTerms.

(** The sum of rationals, from the right. *)
Fixpoint sumQ (w : list Q) : Q :=
  match w with
  | [] => 0%Q
  | v :: w' => (v + sumQ w')%Q
  end.

(* ===================================================================== *)
(** ** Concrete files *)
(* ===================================================================== *)

Module Examples.

Definition ten : B64.t := of_int 10.

(** Stands for [scipy.stats.ttest_ind] where a closed term needs one. *)
Definition some_ttest_ind (a b : list B64.t) : B64.t * B64.t :=
  (S754_nan, S754_nan).

Definition files_rmsd : list (string * string) :=
  [("apo", "rmsd_apo.xvg"); ("test", "rmsd_test.xvg");
   ("standard", "rmsd_standard.xvg")].

(** Annotation lines: a well-formed one, one whose closing quote is missing,
    and one without any quote. *)
Definition title_closed : string :=
  String.append "@    title "
    (String PyStr.dquote (String.append "RMSD" (String PyStr.dquote ""))).

Definition title_unclosed : string :=
  String.append "@    title " (String PyStr.dquote "RMSD").

Definition title_unquoted : string := "@    title Backbone".

(** Ten rows [i, 2 i]. *)
Definition ten_rows : list string :=
  ["0 0"; "1 2"; "2 4"; "3 6"; "4 8"; "5 10"; "6 12"; "7 14"; "8 16"; "9 18"].

(** A file with a header, an annotation, four rows and a line that is not
    numeric. *)
Definition four_rows : list string :=
  ["# gmx rms"; title_closed; "";
   "0.0 0.10"; "10.0  0.12"; "20.0 n/a"; "  30.0 0.11"; "40.0 0.13"].

(** A file without any numeric line. *)
Definition no_rows : list string := ["# gmx rms"; "@TYPE xy"; ""].

(** Rows of two and of three columns. *)
Definition ragged_rows : list string := ["1 2"; "3 4 5"].

Definition drift_rows : list string := ["0 0"; "1 0.1"; "2 0.2"].

(** Only the apo run exists. *)
Definition fs_one (path : string) : option (list string) :=
  if String.eqb path "rmsd_apo.xvg" then Some ten_rows else None.

(** The apo and the test runs exist. *)
Definition fs_two (path : string) : option (list string) :=
  if String.eqb path "rmsd_apo.xvg" then Some ten_rows
  else if String.eqb path "rmsd_test.xvg" then Some four_rows
  else None.

(** The test run exists but its file has no numeric line. *)
Definition fs_empty (path : string) : option (list string) :=
  if String.eqb path "rmsd_apo.xvg" then Some ten_rows
  else if String.eqb path "rmsd_test.xvg" then Some no_rows
  else None.

Definition fs_none (path : string) : option (list string) := None.

(** The apo and the test runs can be read, and the file of the standard
    run has no numeric line. *)
Definition fs_third_empty (path : string) : option (list string) :=
  if String.eqb path "rmsd_standard.xvg" then Some no_rows
  else fs_two path.

(** Only the apo run exists, and its file has no numeric line. *)
Definition fs_only_empty (path : string) : option (list string) :=
  if String.eqb path "rmsd_apo.xvg" then Some no_rows else None.

(** The second column that the reader gives for a file. *)
Definition y_of (lines : list string) : list B64.t :=
  match read_xvg B64.float since_1_24 lines with
  | Ok (data, _) =>
      match column data 1 with
      | Ok y => y
      | Raise _ => []
      end
  | Raise _ => []
  end.

Definition x_of (lines : list string) : list B64.t :=
  match read_xvg B64.float since_1_24 lines with
  | Ok (data, _) =>
      match column data 0 with
      | Ok x => x
      | Raise _ => []
      end
  | Raise _ => []
  end.

End Examples.

(* ===================================================================== *)
(** ** The vocabulary of further statements about the reader *)
(* ===================================================================== *)

(** A string of white space only. *)
Definition blank (s : string) : bool :=
  match PyStr.lstrip s with
  | EmptyString => true
  | String _ _ => false
  end.

(** [raw'] is [raw] with white space added at its ends. *)
Definition padded (raw raw' : string) : Prop :=
  exists left right,
    blank left = true /\ blank right = true /\
    raw' = String.append left (String.append raw right).

(** A line that the reader looks at: not empty once stripped and not a
    comment. *)
Definition kept (raw : string) : bool :=
  let line := PyStr.strip raw in
  negb (String.eqb line "" || PyStr.startswith "#" line).

(** The values that the annotation lines of a file give to each field, in
    the order of the lines.  A line that mentions the title never sets a
    label, and a line that sets the x label never sets the y label. *)
Definition is_title_line (line : string) : bool :=
  PyStr.startswith "@" line && PyStr.contains "title" (PyStr.lower line).

Definition is_xlabel_line (line : string) : bool :=
  PyStr.startswith "@" line
  && negb (PyStr.contains "title" (PyStr.lower line))
  && (PyStr.contains "xaxis" (PyStr.lower line)
      && PyStr.contains "label" (PyStr.lower line)).

Definition is_ylabel_line (line : string) : bool :=
  PyStr.startswith "@" line
  && negb (PyStr.contains "title" (PyStr.lower line))
  && negb (PyStr.contains "xaxis" (PyStr.lower line)
           && PyStr.contains "label" (PyStr.lower line))
  && (PyStr.contains "yaxis" (PyStr.lower line)
      && PyStr.contains "label" (PyStr.lower line)).

Definition values_of (selects : string -> bool) (lines : list string)
  : list string :=
  flat_map (fun raw =>
              let line := PyStr.strip raw in
              if selects line then
                match quoted line with
                | Some v => [v]
                | None => []
                end
              else []) lines.

(* ===================================================================== *)
(** ** The vocabulary of further statements about the summarizer *)
(* ===================================================================== *)

Section SummarizerErrors.
Context {F : Type} `{Arith F}.
Variable float : string -> option F.
Variable numpy : numpy_version.
Variable fs : string -> option (list string).

(** The exception that the series of an item raises in the loop of
    [create_box_plots], if any: from reading the file, from selecting the
    second column, or from looking up the key. *)
Definition failure (item : string * string) : option exn :=
  match fs (snd item) with
  | None => None
  | Some lines =>
      match read_xvg float numpy lines with
      | Raise e => Some e
      | Ok (data, _) =>
          match column data 1 with
          | Raise e => Some e
          | Ok _ =>
              match getitem LABELS (fst item) with
              | Raise e => Some e
              | Ok _ =>
                  match getitem COLORS (fst item) with
                  | Raise e => Some e
                  | Ok _ => None
                  end
              end
          end
      end
  end.

(** The exception of the first item that raises. *)
Fixpoint first_failure (items : list (string * string)) : option exn :=
  match items with
  | [] => None
  | item :: items' =>
      match failure item with
      | Some e => Some e
      | None => first_failure items'
      end
  end.

Definition outcome (items : list (string * string)) : result unit :=
  match first_failure items with
  | Some e => Raise e
  | None => Ok tt
  end.







End SummarizerErrors.

(* ===================================================================== *)
(** ** The figures, the console and the two drivers *)
(* ===================================================================== *)

(** A [str] with characters beyond code point 255: its code points. *)
Definition text := list N.

Definition codes (s : string) : text :=
  map N_of_ascii (list_ascii_of_string s).

Definition check_mark : N := 10003.
Definition alpha : N := 945.

(** ['='*n] *)
Fixpoint equals (n : nat) : string :=
  match n with
  | O => EmptyString
  | S n' => String "="%char (equals n')
  end.

Definition newline : string := String "010"%char EmptyString.

(** The calls on a figure as a whole. *)
Inductive fig_call :=
| fig_suptitle (t : text)
| plt_tight_layout.

(** A figure: the calls on it and the calls on each of its axes, in the
    order in which the axes were created. *)
Record Figure (F : Type) := {
  fig_calls : list fig_call;
  axes : list (list (call F))
}.
Arguments fig_calls {F} f.
Arguments axes {F} f.

(** What the drivers act on: the current figure of pyplot, the images
    written by [savefig] with the figure as it was then, and the lines
    printed.  A figure can always be drawn and its image written: the calls
    of matplotlib return.  What raises in a driver is the reading of a
    series, inside [plot_with_stats] and [create_box_plots], and [print]. *)
Record World (F : Type) := {
  current : Figure F;
  saved : list (string * Figure F);
  console : list text
}.
Arguments current {F} w.
Arguments saved {F} w.
Arguments console {F} w.

Definition W (F A : Type) : Type := World F -> result A * World F.

Definition wret {F A} (a : A) : W F A := fun w => (Ok a, w).

Definition wbind {F A B} (m : W F A) (k : A -> W F B) : W F B :=
  fun w =>
    match m w with
    | (Ok a, w') => k a w'
    | (Raise e, w') => (Raise e, w')
    end.

Definition wlift {F A} (r : result A) : W F A := fun w => (r, w).

Declare Scope world_scope.
Delimit Scope world_scope with world.
Notation "x <- m ;; k" := (wbind m (fun x => k))
  (at level 61, m at next level, right associativity) : world_scope.
Notation "m ;; k" := (wbind m (fun _ => k))
  (at level 61, right associativity) : world_scope.

Definition empty_figure {F} : Figure F := {| fig_calls := []; axes := [] |}.

(** [xs[i] = x] *)
Fixpoint update {A} (xs : list A) (i : nat) (x : A) : list A :=
  match xs, i with
  | [], _ => []
  | _ :: xs', O => x :: xs'
  | y :: xs', S i' => y :: update xs' i' x
  end.

Section Pyplot.
Context {F : Type}.

Definition set_current (w : World F) (f : Figure F) : World F :=
  {| current := f; saved := saved w; console := console w |}.

(** [plt.figure(...)] *)
Definition plt_figure : W F unit :=
  fun w => (Ok tt, set_current w empty_figure).

(** [fig.add_subplot(...)]: the new axes. *)
Definition add_subplot : W F nat :=
  fun w =>
    (Ok (List.length (axes (current w))),
     set_current w {| fig_calls := fig_calls (current w);
                      axes := axes (current w) ++ [[]] |}).

(** [plt.subplots(1, n)]: a new figure and the array of its axes. *)
Definition plt_subplots (n : nat) : W F (list nat) :=
  fun w =>
    (Ok (seq 0 n),
     set_current w {| fig_calls := []; axes := repeat [] n |}).

(** A call on the current figure. *)
Definition fig_do (c : fig_call) : W F unit :=
  fun w =>
    (Ok tt,
     set_current w {| fig_calls := fig_calls (current w) ++ [c];
                      axes := axes (current w) |}).

(** [plt.savefig(name, ...)] *)
Definition plt_savefig (name : string) : W F unit :=
  fun w =>
    (Ok tt,
     {| current := current w;
        saved := saved w ++ [(name, current w)];
        console := console w |}).

(** [plt.close()] *)
Definition plt_close : W F unit :=
  fun w => (Ok tt, set_current w empty_figure).

(** [sys.stdout] can write the character [c]: every encoding of a
    terminal, a pipe or a file holds the ASCII characters; for the others
    [stdout c] tells whether the encoding of [sys.stdout] has the character
    (or its error handler is not ['strict']). *)
Variable stdout : N -> bool.

Definition encodable (t : text) : bool :=
  forallb (fun c => (c <? 128)%N || stdout c) t.

(** [print(t)]: the line is encoded as a whole before any of it is written,
    and a character that [sys.stdout] cannot encode raises
    [UnicodeEncodeError]. *)
Definition print (t : text) : W F unit :=
  fun w =>
    if encodable t then
      (Ok tt,
       {| current := current w; saved := saved w;
          console := console w ++ [t] |})
    else (Raise UnicodeEncodeError, w).

(** A function that draws on the axes [ax]; the calls made before an
    exception stay on the axes. *)
Definition on_ax (ax : nat) (m : M F unit) : W F unit :=
  fun w =>
    match nth_error (axes (current w)) ax with
    | Some log =>
        let '(r, log') := m log in
        (r, set_current w {| fig_calls := fig_calls (current w);
                             axes := update (axes (current w)) ax log' |})
    | None => (Raise IndexError, w)
    end.

End Pyplot.

(** [d[key]] for a dict of any values. *)
Fixpoint getvalue {A} (d : list (string * A)) (key : string) : result A :=
  match d with
  | [] => Raise KeyError
  | (k, v) :: d' => if String.eqb k key then Ok v else getvalue d' key
  end.

(** The letter A with a ring and the superscript two. *)
Definition angstrom : string := String "197"%char EmptyString.
Definition squared : string := String "178"%char EmptyString.

Definition label_RMSD : string :=
  String.append "RMSD (" (String.append angstrom ")").
Definition label_RMSF : string :=
  String.append "RMSF (" (String.append angstrom ")").
Definition label_Rg : string :=
  String.append "Rg (" (String.append angstrom ")").
Definition label_SASA : string :=
  String.append "SASA (nm" (String.append squared ")").

(** The dict [files] of [create_full_analysis]. *)
Definition files : list (string * list (string * string)) :=
  [("rmsd", [("apo", "rmsd_apo.xvg"); ("test", "rmsd_test.xvg");
             ("standard", "rmsd_standard.xvg")]);
   ("rmsf", [("apo", "rmsf_apo.xvg"); ("test", "rmsf_test.xvg");
             ("standard", "rmsf_standard.xvg")]);
   ("rg", [("apo", "rg_apo.xvg"); ("test", "rg_test.xvg");
           ("standard", "rg_standard.xvg")]);
   ("sasa", [("apo", "sasa_apo.xvg"); ("test", "sasa_test.xvg");
             ("standard", "sasa_standard.xvg")]);
   ("hbonds", [("test", "hbonds_test.xvg");
               ("standard", "hbonds_standard.xvg")])].

(** The dict [files_dict] of [create_summary_statistics].  The entry
    ['factor'] of each inner dict, which [file_info.pop('factor')] takes out
    before the dict is iterated, is kept beside the three files. *)
Definition files_dict_summary : list (string * (list (string * string) * Z)) :=
  [(label_RMSD, ([("apo", "rmsd_apo.xvg"); ("test", "rmsd_test.xvg");
                  ("standard", "rmsd_standard.xvg")], 10%Z));
   (label_Rg, ([("apo", "rg_apo.xvg"); ("test", "rg_test.xvg");
                ("standard", "rg_standard.xvg")], 10%Z));
   (label_SASA, ([("apo", "sasa_apo.xvg"); ("test", "sasa_test.xvg");
                  ("standard", "sasa_standard.xvg")], 1%Z))].

Definition output_png : string := "MD_Complete_Analysis.png".
Definition output_svg : string := "MD_Complete_Analysis.svg".
Definition output_stats : string := "MD_Statistics_Comparison.png".

(** [f"\n(check mark) Saved: {name}"] and [f"(check mark) Saved: {name}"] *)
Definition saved_line (lead : string) (name : string) : text :=
  codes lead ++ [check_mark] ++ codes (String.append " Saved: " name).

Section Drivers.
Context {F : Type} `{Arith F}.
Variable float : string -> option F.
Variable numpy : numpy_version.
Variable ttest_ind : list F -> list F -> F * F.
Variable fs : string -> option (list string).
Variable stdout : N -> bool.

Local Open Scope world_scope.

Definition create_full_analysis : W F (string * string) :=
  plt_figure ;;
  (* Row 1: RMSD time series and box plot *)
  ax1 <- add_subplot ;;
  ax2 <- add_subplot ;;
  print stdout (codes "Analyzing RMSD...") ;;
  rmsd <- wlift (getvalue files "rmsd") ;;
  on_ax ax1 (plot_with_stats float numpy fs rmsd label_RMSD
               "(A) Root Mean Square Deviation" (of_int 10) true) ;;
  rmsd <- wlift (getvalue files "rmsd") ;;
  on_ax ax2 (create_box_plots float numpy ttest_ind fs "RMSD" rmsd label_RMSD
               (of_int 10)) ;;
  (* Row 2: RMSF and Rg *)
  ax3 <- add_subplot ;;
  ax4 <- add_subplot ;;
  print stdout (codes "Analyzing RMSF...") ;;
  rmsf <- wlift (getvalue files "rmsf") ;;
  on_ax ax3 (plot_with_stats float numpy fs rmsf label_RMSF
               "(B) Root Mean Square Fluctuation" (of_int 10) false) ;;
  rg <- wlift (getvalue files "rg") ;;
  on_ax ax4 (create_box_plots float numpy ttest_ind fs "Rg" rg label_Rg
               (of_int 10)) ;;
  (* Row 3: Rg time series and SASA box plot *)
  ax5 <- add_subplot ;;
  ax6 <- add_subplot ;;
  print stdout (codes "Analyzing Radius of Gyration...") ;;
  rg <- wlift (getvalue files "rg") ;;
  on_ax ax5 (plot_with_stats float numpy fs rg label_Rg
               "(C) Radius of Gyration" (of_int 10) true) ;;
  sasa <- wlift (getvalue files "sasa") ;;
  on_ax ax6 (create_box_plots float numpy ttest_ind fs "SASA" sasa label_SASA
               (of_int 1)) ;;
  (* Row 4: SASA and H-bonds *)
  ax7 <- add_subplot ;;
  ax8 <- add_subplot ;;
  print stdout (codes "Analyzing SASA...") ;;
  sasa <- wlift (getvalue files "sasa") ;;
  on_ax ax7 (plot_with_stats float numpy fs sasa label_SASA
               "(D) Solvent Accessible Surface Area" (of_int 1) true) ;;
  print stdout (codes "Analyzing Hydrogen Bonds...") ;;
  hbonds <- wlift (getvalue files "hbonds") ;;
  on_ax ax8 (plot_with_stats float numpy fs hbonds "H-bonds"
               "(E) Hydrogen Bonds" (of_int 1) true) ;;
  fig_do (fig_suptitle
            (codes "Comprehensive MD Simulation Analysis: " ++ [alpha]
             ++ codes "-Glucosidase with Berberine and Acarbose")) ;;
  plt_savefig output_png ;;
  plt_savefig output_svg ;;
  print stdout (saved_line newline output_png) ;;
  print stdout (saved_line "" output_svg) ;;
  plt_close ;;
  wret (output_png, output_svg).

(** The body of the loop of [create_summary_statistics]. *)
Definition summary_plot (axs : list nat)
    (entry : nat * (string * (list (string * string) * Z))) : W F unit :=
  let '(idx, (param_name, (file_info, factor))) := entry in
  ax <- wlift (index axs idx) ;;
  on_ax ax (create_box_plots float numpy ttest_ind fs param_name file_info
              param_name (of_int factor)).

(** [for x in xs: body(x)] *)
Fixpoint wfor_each {A} (xs : list A) (body : A -> W F unit) : W F unit :=
  match xs with
  | [] => wret tt
  | x :: xs' => body x ;; wfor_each xs' body
  end.

Definition create_summary_statistics : W F string :=
  axes <- plt_subplots 3 ;;
  fig_do (fig_suptitle (codes "Statistical Comparison of MD Parameters")) ;;
  wfor_each (combine (seq 0 (List.length files_dict_summary))
               files_dict_summary)
    (summary_plot axes) ;;
  fig_do plt_tight_layout ;;
  plt_savefig output_stats ;;
  print stdout (saved_line "" output_stats) ;;
  plt_close ;;
  wret output_stats.

(** The block run when the file is the main program. *)
Definition main : W F unit :=
  print stdout (codes (String.append newline (equals 70))) ;;
  print stdout (codes "Advanced MD Simulation Analysis") ;;
  print stdout (codes (String.append (equals 70) newline)) ;;
  names <- create_full_analysis ;;
  let '(png1, svg1) := names in
  print stdout (codes (String.append newline
                  "Creating statistical comparisons...")) ;;
  stats_fig <- create_summary_statistics ;;
  print stdout (codes (String.append newline (equals 70))) ;;
  print stdout (codes "Analysis Complete!") ;;
  print stdout (codes (equals 70)) ;;
  print stdout (codes (String.append newline "Generated files:")) ;;
  print stdout (codes (String.append "  1. " png1)) ;;
  print stdout (codes (String.append "  2. " svg1)) ;;
  print stdout (codes (String.append "  3. " stats_fig)) ;;
  print stdout (codes newline ++ [check_mark]
         ++ codes " All figures are publication-ready (600 DPI)").

End Drivers.

(** The files that the program names. *)
Definition named_files : list string :=
  flat_map (fun entry => map snd (snd entry)) files.

Definition empty_world {F} : World F :=
  {| current := empty_figure; saved := []; console := [] |}.

(** The lines that [create_full_analysis] prints before it saves the
    images, and all the lines it prints when it returns. *)
Definition progress_lines : list text :=
  [codes "Analyzing RMSD..."; codes "Analyzing RMSF...";
   codes "Analyzing Radius of Gyration..."; codes "Analyzing SASA...";
   codes "Analyzing Hydrogen Bonds..."].

Definition analysis_lines : list text :=
  progress_lines ++ [saved_line newline output_png; saved_line "" output_svg].

(** The characters of a string are ASCII characters. *)
Definition is_ascii (s : string) : bool :=
  forallb (fun a => (N_of_ascii a <? 128)%N) (list_ascii_of_string s).

(** The lines that the main block prints after the two figures. *)
Definition closing_lines (png1 svg1 stats_fig : string) : list text :=
  [codes (String.append newline (equals 70));
   codes "Analysis Complete!";
   codes (equals 70);
   codes (String.append newline "Generated files:");
   codes (String.append "  1. " png1);
   codes (String.append "  2. " svg1);
   codes (String.append "  3. " stats_fig);
   codes newline ++ [check_mark]
     ++ codes " All figures are publication-ready (600 DPI)"].

(** The entries of the dicts of [create_full_analysis], in the order of the
    dict, and those of [create_summary_statistics]. *)
Definition analysis_items : list (string * string) := flat_map snd files.

Definition summary_items : list (string * string) :=
  flat_map (fun entry => fst (snd entry)) files_dict_summary.

(** The lines that the main block prints before the first figure and
    between the two figures. *)
Definition opening_lines : list text :=
  [codes (String.append newline (equals 70));
   codes "Advanced MD Simulation Analysis";
   codes (String.append (equals 70) newline)].

Definition comparison_line : text :=
  codes (String.append newline "Creating statistical comparisons...").

Import Examples.

(* ===================================================================== *)
(** ** More concrete files *)
(* ===================================================================== *)

Module Runs.

(** The array and the metadata that the reader gives for a file. *)
Definition table_of (lines : list string) : ndarray B64.t :=
  match read_xvg B64.float since_1_24 lines with
  | Ok (a, _) => a
  | Raise _ => Vec []
  end.

Definition metadata_of (lines : list string) : Metadata :=
  snd (read_lines B64.float lines).

(** A file with one number per line. *)
Definition one_column : list string := ["0.1"; "0.2"; "0.3"].

(** Two lines, and the same lines with white space around them. *)
Definition bare_lines : list string := ["1 2"; "# c"].
Definition padded_lines : list string :=
  [String.append "  " (String.append "1 2" (String "009"%char " "));
   "# c"].

(** The apo run exists and the file of the test run has one column. *)
Definition fs_single (path : string) : option (list string) :=
  if String.eqb path "rmsd_apo.xvg" then Some ten_rows
  else if String.eqb path "rmsd_test.xvg" then Some one_column
  else None.

(** The files of [fs_two] and one more that the program does not name. *)
Definition fs_two_more (path : string) : option (list string) :=
  if String.eqb path "notes.txt" then Some ["not a table"]
  else fs_two path.

(** A dict with a key that has no label. *)
Definition files_control : list (string * string) :=
  [("apo", "rmsd_apo.xvg"); ("control", "rmsd_test.xvg")].

(** Two encodings of [sys.stdout]: UTF-8 has every character, Latin-1 the
    characters up to code point 255. *)
Definition utf_8 (c : N) : bool := true.
Definition latin_1 (c : N) : bool := (c <? 256)%N.

End Runs.

Import Runs.

(* ===================================================================== *)
(** * Properties *)
(* ===================================================================== *)

(* ===================================================================== *)
(** ** The builtins on sample inputs *)
(* ===================================================================== *)

Example strip_line :
  PyStr.strip (String.append "  0.5 1e3 " (String "010"%char ""))
  = "0.5 1e3".
Proof. reflexivity. Qed.

Example split_tokens : PyStr.split "0.5   1e3 x" = ["0.5"; "1e3"; "x"].
Proof. reflexivity. Qed.

Example split_at_quotes :
  PyStr.split_char PyStr.dquote title_closed = ["@    title "; "RMSD"; ""]
  /\ PyStr.split_char PyStr.dquote title_unclosed = ["@    title "; "RMSD"]
  /\ PyStr.split_char PyStr.dquote title_unquoted = [title_unquoted].
Proof. repeat split; reflexivity. Qed.

Example lower_title : PyStr.contains "title" (PyStr.lower "@ SubTitle") = true.
Proof. reflexivity. Qed.

Example float_tenth :
  B64.float "0.1" = Some (S754_finite false 7205759403792794 (-56)).
Proof. vm_compute; reflexivity. Qed.

Example float_forms :
  map B64.float ["1."; ".5"; "1e3"; "-0"; "1_000"; "+inf"; "NaN"]
  = [Some (of_int 1); Some (dec 5 (-1)); Some (of_int 1000);
     Some (S754_zero true); Some (of_int 1000); Some (S754_infinity false);
     Some S754_nan].
Proof. vm_compute; reflexivity. Qed.

Example float_rejects :
  map B64.float ["."; "1e"; "0x10"; "1__0"; "n/a"; "1,5"; ""; "--1"]
  = [None; None; None; None; None; None; None; None].
Proof. vm_compute; reflexivity. Qed.

Example float_ties_to_even :
  B64.float "9007199254740993" = B64.float "9007199254740992".
Proof. vm_compute; reflexivity. Qed.

Example float_overflows : B64.float "1e400" = Some (S754_infinity false).
Proof. vm_compute; reflexivity. Qed.

(** [np.mean] adds in eight accumulators: ten entries 0.1 have the mean
    0.1, which their sum in index order misses by one unit in the last
    place; 129 and 300 entries 0.1 go through the entries that are left
    after the blocks of eight and through the cut in two. *)
Example mean_of_tenths :
  let tenth : B64.t := dec 1 (-1) in
  map (fun n => Some (np_mean (repeat tenth n))) [7; 10; 129; 300]
  = map B64.float ["0.09999999999999999"; "0.1"; "0.09999999999999999";
                   "0.09999999999999999"] /\
  Some (truediv (fold_left add (repeat tenth 10) (of_int 0)) (of_int 10))
  = B64.float "0.09999999999999999".
Proof. split; vm_compute; reflexivity. Qed.

(* ===================================================================== *)
(** ** Facts about strings *)
(* ===================================================================== *)

Module PyStrFacts.
Import PyStr.

Lemma split_char_unfold sep s :
  split_char sep s =
  before sep s :: match after sep s with
                  | Some rest => split_char sep rest
                  | None => []
                  end.
Proof.
  induction s as [|c s IH]; simpl; [reflexivity|].
  destruct (Ascii.eqb c sep).
  - destruct s; reflexivity.
  - rewrite IH. reflexivity.
Qed.

Lemma startswith_char a s :
  startswith (String a EmptyString) s = true -> exists s', s = String a s'.
Proof.
  destruct s as [|b s]; cbn [startswith]; [discriminate|].
  destruct (Ascii.eqb_spec a b) as [<-|]; [eauto|discriminate].
Qed.

Lemma before_app sep pre rest :
  mem sep pre = false ->
  before sep (String.append pre (String sep rest)) = pre.
Proof.
  induction pre as [|c pre IH]; simpl; intros Hm.
  - now rewrite Ascii.eqb_refl.
  - apply orb_false_iff in Hm as [Hc Hm]. rewrite Hc, IH by assumption.
    reflexivity.
Qed.

Lemma after_app sep pre rest :
  mem sep pre = false ->
  after sep (String.append pre (String sep rest)) = Some rest.
Proof.
  induction pre as [|c pre IH]; simpl; intros Hm.
  - now rewrite Ascii.eqb_refl.
  - apply orb_false_iff in Hm as [Hc Hm]. now rewrite Hc, IH.
Qed.

Lemma before_none sep s : mem sep s = false -> before sep s = s.
Proof.
  induction s as [|c s IH]; simpl; intros Hm; [reflexivity|].
  apply orb_false_iff in Hm as [Hc Hm]. now rewrite Hc, IH.
Qed.

Lemma after_none sep s : mem sep s = false -> after sep s = None.
Proof.
  induction s as [|c s IH]; simpl; intros Hm; [reflexivity|].
  apply orb_false_iff in Hm as [Hc Hm]. now rewrite Hc, IH.
Qed.

End PyStrFacts.

(* ===================================================================== *)
(** ** Facts about the reader *)
(* ===================================================================== *)

Section ReaderFacts.
Context {F : Type} `{Arith F}.
Variable float : string -> option F.

Lemma floats_length toks vs :
  floats float toks = Some vs -> List.length vs = List.length toks.
Proof.
  revert vs; induction toks as [|x toks IH]; simpl; intros vs Hf.
  - now inversion Hf.
  - destruct (float x); [|discriminate].
    destruct (floats float toks) as [vs'|]; [|discriminate].
    inversion Hf; subst; simpl. now rewrite (IH vs').
Qed.

Lemma floats_parses toks :
  forallb (parses float) toks = true <-> exists vs, floats float toks = Some vs.
Proof.
  induction toks as [|x toks IH]; simpl.
  - split; [eauto|reflexivity].
  - unfold parses at 1. destruct (float x) as [v|]; simpl.
    + rewrite IH. split; intros [vs Hvs].
      * rewrite Hvs. eauto.
      * destruct (floats float toks); [eauto|discriminate].
    + split; [discriminate|intros [vs Hvs]; discriminate].
Qed.

Lemma row_of_width raw row :
  row_of float raw row -> List.length row = width raw.
Proof. apply floats_length. Qed.

(** What one line does to [data_lines]. *)
Lemma read_line_rows st raw :
  (numeric_line float raw = true /\
   exists row, row_of float raw row /\
     read_line float st raw = (fst st ++ [row], snd st)) \/
  (numeric_line float raw = false /\ fst (read_line float st raw) = fst st).
Proof.
  destruct st as [dl md]. unfold numeric_line, read_line, row_of.
  cbn [fst snd].
  destruct (String.eqb (PyStr.strip raw) ""); cbn [negb andb orb];
    [right; auto|].
  destruct (PyStr.startswith "#" (PyStr.strip raw)); cbn [negb andb orb];
    [right; auto|].
  destruct (PyStr.startswith "@" (PyStr.strip raw)); cbn [negb andb orb];
    [right; auto|].
  destruct (floats float (PyStr.split (PyStr.strip raw))) as [row|] eqn:Hf.
  - left. split; [|eauto]. apply floats_parses; eauto.
  - right. split; [|reflexivity].
    destruct (forallb (parses float) _) eqn:Hp; [|reflexivity].
    apply floats_parses in Hp as [vs Hvs]. congruence.
Qed.

(** [data_lines] after the loop: the rows of the numeric lines, in order. *)
Lemma read_lines_from lines : forall st,
  exists rows,
    Forall2 (row_of float) (filter (numeric_line float) lines) rows /\
    fst (fold_left (read_line float) lines st) = fst st ++ rows.
Proof.
  induction lines as [|raw lines IH]; intros st; simpl.
  - exists []. split; [constructor|now rewrite app_nil_r].
  - destruct (read_line_rows st raw) as [[Hn [row [Hrow Heq]]]|[Hn Heq]];
      rewrite Hn.
    + destruct (IH (read_line float st raw)) as [rows [HF Hfst]].
      exists (row :: rows). split; [constructor; assumption|].
      rewrite Hfst, Heq; simpl. now rewrite <- app_assoc.
    + destruct (IH (read_line float st raw)) as [rows [HF Hfst]].
      exists rows. split; [assumption|]. now rewrite Hfst, Heq.
Qed.

Lemma read_lines_rows lines :
  exists rows,
    Forall2 (row_of float) (filter (numeric_line float) lines) rows /\
    fst (read_lines float lines) = rows.
Proof.
  destruct (read_lines_from lines ([], empty_metadata)) as [rows [HF Hfst]].
  exists rows. split; [assumption|exact Hfst].
Qed.

Lemma rectangular_of_widths ls rs l (r : list F) :
  Forall2 (row_of float) ls rs ->
  List.length r = width l ->
  forallb (fun l' => width l' =? width l) ls = true ->
  forallb (fun r' => List.length r' =? List.length r) rs = true.
Proof.
  intros HF Hr. induction HF as [|l' r' ls rs Hrow HF IH]; simpl;
    [reflexivity|].
  intros Hw. apply andb_true_iff in Hw as [Hw Hws].
  apply andb_true_iff. split; [|auto].
  now rewrite (row_of_width _ _ Hrow), Hr.
Qed.

Lemma well_formed_rectangular lines rows :
  well_formed float lines = true ->
  Forall2 (row_of float) (filter (numeric_line float) lines) rows ->
  rectangular rows = true.
Proof.
  unfold well_formed. intros Hw HF.
  destruct HF as [|l r ls rs Hrow HF]; simpl; [reflexivity|].
  eapply rectangular_of_widths; eauto using row_of_width.
Qed.

Lemma read_xvg_unfold v lines :
  read_xvg float v lines =
  result_bind (np_array v (fst (read_lines float lines)))
    (fun a => Ok (a, snd (read_lines float lines))).
Proof.
  unfold read_xvg. destruct (read_lines float lines); reflexivity.
Qed.

Lemma np_array_nrows v (rows : list (list F)) a :
  np_array v rows = Ok a -> nrows a = List.length rows.
Proof.
  unfold np_array. destruct rows as [|r rs]; [intros E; now inversion E|].
  destruct (rectangular (r :: rs)); [intros E; now inversion E|].
  destruct v; intros E; now inversion E.
Qed.

Lemma np_array_rectangular v (rows : list (list F)) :
  rectangular rows = true ->
  np_array v rows =
  Ok (match rows with [] => Vec [] | r :: _ => Mat (List.length r) rows end).
Proof.
  unfold np_array. destruct rows as [|r rs]; [reflexivity|].
  now intros ->.
Qed.

Lemma row_of_functional ls : forall r1 r2,
  Forall2 (row_of float) ls r1 -> Forall2 (row_of float) ls r2 -> r1 = r2.
Proof.
  induction ls as [|l ls IH]; intros r1 r2 H1 H2; inversion H1; inversion H2;
    subst; [reflexivity|].
  f_equal; [unfold row_of in *; congruence|auto].
Qed.

Lemma quoted_spec line :
  quoted line =
  option_map (PyStr.before PyStr.dquote) (PyStr.after PyStr.dquote line).
Proof.
  unfold quoted. rewrite PyStrFacts.split_char_unfold. simpl.
  destruct (PyStr.after PyStr.dquote line) as [rest|]; [|reflexivity].
  now rewrite PyStrFacts.split_char_unfold.
Qed.

Lemma read_line_annotation st raw :
  PyStr.startswith "@" (PyStr.strip raw) = true ->
  read_line float st raw = (fst st, annotation (snd st) (PyStr.strip raw)).
Proof.
  intros Hat. destruct st as [dl md]. unfold read_line; cbn [fst snd].
  destruct (PyStrFacts.startswith_char _ _ Hat) as [line ->]. reflexivity.
Qed.

Lemma annotation_quoted metadata line v :
  quoted line = Some v -> annotation metadata line = assigned metadata line v.
Proof. unfold annotation, assigned. now intros ->. Qed.

Lemma annotation_unquoted metadata line :
  quoted line = None -> annotation metadata line = metadata.
Proof.
  unfold annotation. intros ->.
  repeat match goal with |- context [if ?b then _ else _] => destruct b end;
    reflexivity.
Qed.

(** C3: for a well-formed file the matrix that the reader returns has exactly
    one row per line that is not empty once stripped, starts neither with '#'
    nor with '@', and whose tokens all parse as floats, in the order of the
    file; no other line gives a row. *)
Theorem read_xvg_one_row_per_numeric_line (v : numpy_version)
    (lines : list string) :
  well_formed float lines = true ->
  exists a metadata rows,
    read_xvg float v lines = Ok (a, metadata) /\
    np_array v rows = Ok a /\
    Forall2 (row_of float) (filter (numeric_line float) lines) rows /\
    nrows a = List.length (filter (numeric_line float) lines).
Proof.
  intros Hw.
  destruct (read_lines_rows lines) as [rows [HF Hrows]].
  pose proof (well_formed_rectangular _ _ Hw HF) as Hrect.
  pose proof (np_array_rectangular v rows Hrect) as Hnp.
  eexists _, (snd (read_lines float lines)), rows.
  split; [rewrite read_xvg_unfold, Hrows, Hnp; reflexivity|].
  split; [exact Hnp|]. split; [exact HF|].
  rewrite (Forall2_length HF). destruct rows; reflexivity.
Qed.

(** C10, as amended: the loop of the reader appends every line that is not
    empty, a comment or an annotation and whose tokens all parse as floats,
    whatever the number of its tokens; no row is skipped or rejected for its
    width.  The conversion of a list with rows of different widths is
    numpy's: before NumPy 1.24 it yields a one-dimensional object array
    holding all the rows, from NumPy 1.24 on it raises ValueError, which the
    reader does not catch. *)
Theorem read_xvg_rows_of_any_width (lines : list string) :
  exists rows,
    Forall2 (row_of float) (filter (numeric_line float) lines) rows /\
    fst (read_lines float lines) = rows /\
    read_xvg float before_1_24 lines =
      Ok (match rows with
          | [] => Vec []
          | r :: _ =>
              if rectangular rows then Mat (List.length r) rows
              else ObjVec rows
          end, snd (read_lines float lines)) /\
    read_xvg float since_1_24 lines =
      match rows with
      | [] => Ok (Vec [], snd (read_lines float lines))
      | r :: _ =>
          if rectangular rows
          then Ok (Mat (List.length r) rows, snd (read_lines float lines))
          else Raise ValueError
      end.
Proof.
  destruct (read_lines_rows lines) as [rows [HF Hrows]].
  exists rows. split; [assumption|]. split; [assumption|].
  rewrite !read_xvg_unfold, Hrows. unfold np_array.
  destruct rows as [|r rs]; [split; reflexivity|].
  destruct (rectangular (r :: rs)); split; reflexivity.
Qed.

(** C7, as amended: an annotation line never adds a row and never makes the
    parse fail: the rows read from the file are those read without the
    line.  When no double quote occurs on the line the metadata are left
    as they were (the default empty string only if no earlier line set the
    field).  When a double quote occurs, the field selected by the keys on
    the line is set to the text between the first double quote and the next
    one, or up to the end of the stripped line when the closing quote is
    missing. *)
Theorem annotation_line_value (st : list (list F) * Metadata) (raw : string) :
  PyStr.startswith "@" (PyStr.strip raw) = true ->
  let line := PyStr.strip raw in
  (forall lines_before lines_after,
      fst (read_lines float (lines_before ++ raw :: lines_after)) =
      fst (read_lines float (lines_before ++ lines_after))) /\
  fst (read_line float st raw) = fst st /\
  (PyStr.mem PyStr.dquote line = false -> read_line float st raw = st) /\
  (forall pre v,
      PyStr.mem PyStr.dquote pre = false ->
      PyStr.mem PyStr.dquote v = false ->
      line = String.append pre (String PyStr.dquote v) \/
      (exists post,
          line = String.append pre
                   (String PyStr.dquote
                      (String.append v (String PyStr.dquote post)))) ->
      snd (read_line float st raw) = assigned (snd st) line v).
Proof.
  intros Hat line. subst line.
  assert (Hnum : numeric_line float raw = false).
  { unfold numeric_line. rewrite Hat. simpl.
    now rewrite andb_false_r. }
  split; [|split; [|split]].
  - intros lb la. unfold read_lines.
    destruct (read_lines_from (lb ++ raw :: la) ([], empty_metadata))
      as [r1 [H1 E1]].
    destruct (read_lines_from (lb ++ la) ([], empty_metadata))
      as [r2 [H2 E2]].
    rewrite E1, E2. f_equal.
    rewrite filter_app in H1, H2. simpl in H1. rewrite Hnum in H1.
    eapply row_of_functional; eassumption.
  - now rewrite read_line_annotation.
  - intros Hm. rewrite read_line_annotation by assumption.
    rewrite annotation_unquoted; [now destruct st|].
    rewrite quoted_spec, PyStrFacts.after_none by assumption. reflexivity.
  - intros pre v Hpre Hv Hline. rewrite read_line_annotation by assumption.
    simpl. apply annotation_quoted. rewrite quoted_spec.
    destruct Hline as [->|[post ->]];
      rewrite PyStrFacts.after_app by assumption; simpl; f_equal.
    + now apply PyStrFacts.before_none.
    + now apply PyStrFacts.before_app.
Qed.

End ReaderFacts.

(* ===================================================================== *)
(** ** Reasoning about logged computations *)
(* ===================================================================== *)

Section LoggedFacts.
Context {F : Type}.

Lemma emits_ret {A} (a : A) : emits (F:=F) (ret a) a [].
Proof. intros log. unfold ret. now rewrite app_nil_r. Qed.

Lemma emits_lift {A} (a : A) : emits (F:=F) (lift (Ok a)) a [].
Proof. intros log. unfold lift. now rewrite app_nil_r. Qed.

Lemma raises_lift {A} e : raises (F:=F) (lift (@Raise A e)) e [].
Proof. intros log. unfold lift. now rewrite app_nil_r. Qed.

Lemma emits_call (c : call F) : emits (do_call c) tt [c].
Proof. intros log. reflexivity. Qed.

Lemma emits_bind {A B} (m : M F A) (k : A -> M F B) a b c1 c2 :
  emits m a c1 -> emits (k a) b c2 -> emits (bind m k) b (c1 ++ c2).
Proof.
  intros Hm Hk log. unfold bind. rewrite Hm, Hk. now rewrite app_assoc.
Qed.

Lemma raises_bind_l {A B} (m : M F A) (k : A -> M F B) e c :
  raises m e c -> raises (bind m k) e c.
Proof. intros Hm log. unfold bind. now rewrite Hm. Qed.

Lemma raises_bind_r {A B} (m : M F A) (k : A -> M F B) a e c1 c2 :
  emits m a c1 -> raises (k a) e c2 -> raises (bind m k) e (c1 ++ c2).
Proof.
  intros Hm Hk log. unfold bind. rewrite Hm, Hk. now rewrite app_assoc.
Qed.

Lemma emits_for_each {A} (xs : list A) (body : A -> M F unit)
    (calls : A -> list (call F)) :
  (forall x, emits (body x) tt (calls x)) ->
  emits (for_each xs body) tt (flat_map calls xs).
Proof.
  intros Hb. induction xs as [|x xs IH]; simpl.
  - apply emits_ret.
  - eapply emits_bind; [apply Hb|exact IH].
Qed.

End LoggedFacts.

(* ===================================================================== *)
(** ** Facts about the summarizer *)
(* ===================================================================== *)

Section SummarizerFacts.
Context {F : Type} `{Arith F}.
Variable float : string -> option F.
Variable numpy : numpy_version.
Variable ttest_ind : list F -> list F -> F * F.
Variable fs : string -> option (list string).

Lemma sound_cases item :
  sound float numpy fs item = true ->
  (fs (snd item) = None /\ series float numpy fs item = None) \/
  (present fs item = true /\ exists x y label color,
      series float numpy fs item = Some (x, y, label, color)).
Proof.
  unfold sound, present, series.
  destruct (fs (snd item)) as [lines|]; cbn [negb orb]; [|auto].
  intros Hs. right. split; [reflexivity|].
  destruct (match read_xvg float numpy lines with Ok _ => _ | Raise _ => _ end)
    as [[[[x y] label] color]|]; [eauto 6|discriminate].
Qed.

Lemma series_inv item x y label color :
  series float numpy fs item = Some (x, y, label, color) ->
  exists lines data metadata,
    fs (snd item) = Some lines /\
    read_xvg float numpy lines = Ok (data, metadata) /\
    column data 0 = Ok x /\ column data 1 = Ok y /\
    getitem LABELS (fst item) = Ok label /\
    getitem COLORS (fst item) = Ok color.
Proof.
  unfold series.
  destruct (fs (snd item)) as [lines|] eqn:Hfs; [|discriminate].
  destruct (read_xvg float numpy lines) as [[data md]|] eqn:Hrd;
    [|discriminate].
  destruct (column data 0) as [x'|] eqn:Hx; [|discriminate].
  destruct (column data 1) as [y'|] eqn:Hy; [|discriminate].
  destruct (getitem LABELS (fst item)) as [l|] eqn:Hl; [|discriminate].
  destruct (getitem COLORS (fst item)) as [c|] eqn:Hc; [|discriminate].
  intros E; inversion E; subst.
  exists lines, data, md. repeat split; assumption.
Qed.

Lemma plot_series_absent cf tn all_means item :
  fs (snd item) = None ->
  emits (plot_series float numpy fs cf tn all_means item) all_means [].
Proof.
  destruct item as [key filepath]; simpl. intros Hfs.
  unfold plot_series. rewrite Hfs. apply emits_ret.
Qed.

Lemma plot_series_present cf tn all_means item x y label color :
  series float numpy fs item = Some (x, y, label, color) ->
  emits (plot_series float numpy fs cf tn all_means item)
    (all_means ++ [(label, trailing_mean cf y)])
    [ax_plot (if tn then divide x (of_int 1000) else x) (scale y cf)
       label color;
     ax_axhline (trailing_mean cf y) color].
Proof.
  intros Hs. destruct (series_inv _ _ _ _ _ Hs)
    as (lines & data & md & Hfs & Hrd & Hx & Hy & Hl & Hc).
  destruct item as [key filepath]; simpl in *.
  intros log. unfold plot_series, bind, lift, do_call, ret.
  rewrite Hfs, Hrd. cbn [fst]. rewrite Hx, Hy, Hl, Hc.
  destruct tn; cbn [result_bind]; now rewrite <- app_assoc.
Qed.

Lemma plot_series_sound cf tn all_means item :
  sound float numpy fs item = true ->
  emits (plot_series float numpy fs cf tn all_means item)
    (all_means ++ means_of float numpy fs cf item)
    (plot_calls float numpy fs cf tn item).
Proof.
  intros Hs. unfold means_of, plot_calls.
  destruct (sound_cases _ Hs) as [[Hfs ->]|[_ (x & y & l & c & Hser)]].
  - rewrite app_nil_r. now apply plot_series_absent.
  - rewrite Hser. now apply plot_series_present.
Qed.

Lemma plot_loop_sound cf tn items : forall all_means,
  forallb (sound float numpy fs) items = true ->
  emits (plot_loop float numpy fs cf tn items all_means)
    (all_means ++ flat_map (means_of float numpy fs cf) items)
    (flat_map (plot_calls float numpy fs cf tn) items).
Proof.
  induction items as [|item items IH]; intros all_means Hs; simpl.
  - rewrite app_nil_r. apply emits_ret.
  - apply andb_true_iff in Hs as [Hi Hs].
    eapply emits_bind; [now apply plot_series_sound|].
    rewrite app_assoc. now apply IH.
Qed.

Lemma box_series_sound cf st item :
  sound float numpy fs item = true ->
  emits (box_series float numpy fs cf st item)
    {| data_list := data_list st ++ windows_of float numpy fs cf item;
       labels_list := labels_list st ++ labels_of float numpy fs item;
       colors_list := colors_list st ++ colors_of float numpy fs item |} [].
Proof.
  intros Hs. unfold windows_of, labels_of, colors_of.
  destruct (sound_cases _ Hs) as [[Hfs ->]|[_ (x & y & l & c & Hser)]].
  - destruct item as [key filepath]; simpl in *. intros log.
    unfold box_series. rewrite Hfs, !app_nil_r. unfold ret.
    now destruct st.
  - rewrite Hser. destruct (series_inv _ _ _ _ _ Hser)
      as (lines & data & md & Hfs & Hrd & Hx & Hy & Hl & Hc).
    destruct item as [key filepath]; simpl in *. intros log.
    unfold box_series, bind, lift, ret.
    rewrite Hfs, Hrd. cbn [fst]. rewrite Hy, Hl, Hc.
    now rewrite app_nil_r.
Qed.

Lemma box_loop_sound cf items : forall st,
  forallb (sound float numpy fs) items = true ->
  emits (box_loop float numpy fs cf items st)
    {| data_list :=
         data_list st ++ flat_map (windows_of float numpy fs cf) items;
       labels_list :=
         labels_list st ++ flat_map (labels_of float numpy fs) items;
       colors_list :=
         colors_list st ++ flat_map (colors_of float numpy fs) items |} [].
Proof.
  induction items as [|item items IH]; intros st Hs; simpl.
  - rewrite !app_nil_r. destruct st. apply emits_ret.
  - apply andb_true_iff in Hs as [Hi Hs].
    change (@nil (call F)) with (@nil (call F) ++ []).
    eapply emits_bind; [now apply box_series_sound|].
    rewrite !app_assoc. exact (IH _ Hs).
Qed.

Lemma significance_emits data_list :
  emits (significance ttest_ind data_list) tt
    (significance_calls ttest_ind data_list).
Proof.
  intros log. destruct data_list as [|b [|a ws]]; unfold significance;
    cbn; unfold ret; rewrite ?app_nil_r; try reflexivity.
  unfold bind, lift, do_call. cbn. now rewrite <- app_assoc.
Qed.

Lemma plot_with_stats_sound files_dict ylabel title cf tn :
  forallb (sound float numpy fs) files_dict = true ->
  emits (plot_with_stats float numpy fs files_dict ylabel title cf tn) tt
    (plot_log float numpy fs files_dict ylabel title cf tn).
Proof.
  intros Hs. unfold plot_with_stats, plot_log.
  eapply emits_bind; [exact (plot_loop_sound cf tn files_dict [] Hs)|].
  cbn [app]. unfold layout_calls.
  repeat (eapply (emits_bind _ _ tt _ [_]); [apply emits_call|]).
  destruct (flat_map (means_of float numpy fs cf) files_dict);
    [apply emits_ret|apply emits_call].
Qed.

Lemma create_box_plots_sound param_name files_dict ylabel cf :
  forallb (sound float numpy fs) files_dict = true ->
  emits (create_box_plots float numpy ttest_ind fs param_name files_dict
           ylabel cf) tt
    (box_log float numpy ttest_ind fs param_name files_dict ylabel cf).
Proof.
  intros Hs. unfold create_box_plots, box_log.
  change (match flat_map (windows_of float numpy fs cf) files_dict with
          | [] => [] | _ :: _ => ?l end)
    with ([] ++ match flat_map (windows_of float numpy fs cf) files_dict with
                | [] => [] | _ :: _ => l end).
  eapply emits_bind;
    [exact (box_loop_sound cf files_dict
              {| data_list := []; labels_list := []; colors_list := [] |} Hs)|].
  cbn [data_list labels_list colors_list app].
  destruct (flat_map (windows_of float numpy fs cf) files_dict) as [|w ws]
    eqn:Hw;
    [apply emits_ret|].
  eapply (emits_bind _ _ tt _ [_]); [apply emits_call|].
  eapply emits_bind.
  { apply emits_for_each with (calls := patch_calls). intros [box color].
    eapply (emits_bind _ _ tt _ [_]); apply emits_call. }
  eapply emits_bind; [apply significance_emits|].
  repeat (eapply (emits_bind _ _ tt _ [_]); [apply emits_call|]).
  apply emits_call.
Qed.

(** Absent series add nothing. *)
Lemma flat_map_present {B} (f : string * string -> list B) items :
  (forall item, series float numpy fs item = None -> f item = []) ->
  flat_map f items = flat_map f (filter (present fs) items).
Proof.
  intros Hf. induction items as [|item items IH]; simpl; [reflexivity|].
  destruct (present fs item) eqn:Hp; simpl; [now rewrite IH|].
  rewrite Hf; [exact IH|]. unfold present in Hp. unfold series.
  now destruct (fs (snd item)).
Qed.

Lemma windows_present cf items :
  flat_map (windows_of float numpy fs cf) items =
  flat_map (windows_of float numpy fs cf) (filter (present fs) items).
Proof. apply flat_map_present. unfold windows_of. now intros item ->. Qed.

Lemma labels_present items :
  flat_map (labels_of float numpy fs) items =
  flat_map (labels_of float numpy fs) (filter (present fs) items).
Proof. apply flat_map_present. unfold labels_of. now intros item ->. Qed.

Lemma colors_present items :
  flat_map (colors_of float numpy fs) items =
  flat_map (colors_of float numpy fs) (filter (present fs) items).
Proof. apply flat_map_present. unfold colors_of. now intros item ->. Qed.

Lemma means_present cf items :
  flat_map (means_of float numpy fs cf) items =
  flat_map (means_of float numpy fs cf) (filter (present fs) items).
Proof. apply flat_map_present. unfold means_of. now intros item ->. Qed.

Lemma plot_calls_present cf tn items :
  flat_map (plot_calls float numpy fs cf tn) items =
  flat_map (plot_calls float numpy fs cf tn) (filter (present fs) items).
Proof. apply flat_map_present. unfold plot_calls. now intros item ->. Qed.

Lemma present_series items item :
  forallb (sound float numpy fs) items = true ->
  In item (filter (present fs) items) ->
  exists x y label color,
    series float numpy fs item = Some (x, y, label, color).
Proof.
  intros Hs Hin. apply filter_In in Hin as [Hin Hp].
  rewrite forallb_forall in Hs. specialize (Hs _ Hin).
  destruct (sound_cases _ Hs) as [[Hfs _]|[_ Hser]]; [|exact Hser].
  unfold present in Hp. now rewrite Hfs in Hp.
Qed.

Lemma no_ttest_in_patches (pcs : list (nat * string)) :
  filter is_ttest (flat_map (patch_calls (F:=F)) pcs) = [] /\
  filter is_p_value (flat_map (patch_calls (F:=F)) pcs) = [].
Proof. induction pcs as [|pc pcs [IH1 IH2]]; simpl; auto. Qed.

(** *** A present series without rows *)

Lemma read_xvg_no_rows lines :
  filter (numeric_line float) lines = [] ->
  read_xvg float numpy lines = Ok (Vec [], snd (read_lines float lines)).
Proof.
  intros Hn. destruct (read_lines_rows float lines) as [rows [HF Hrows]].
  rewrite Hn in HF. inversion HF; subst.
  rewrite read_xvg_unfold. now rewrite <- H1.
Qed.

Lemma plot_series_no_rows cf tn all_means item lines :
  fs (snd item) = Some lines ->
  filter (numeric_line float) lines = [] ->
  raises (plot_series float numpy fs cf tn all_means item) IndexError [].
Proof.
  destruct item as [key filepath]; simpl. intros Hfs Hn log.
  unfold plot_series, bind, lift. rewrite Hfs, (read_xvg_no_rows _ Hn).
  rewrite app_nil_r. now destruct tn.
Qed.

Lemma box_series_no_rows cf st item lines :
  fs (snd item) = Some lines ->
  filter (numeric_line float) lines = [] ->
  raises (box_series float numpy fs cf st item) IndexError [].
Proof.
  destruct item as [key filepath]; simpl. intros Hfs Hn log.
  unfold box_series, bind, lift. rewrite Hfs, (read_xvg_no_rows _ Hn).
  now rewrite app_nil_r.
Qed.

Lemma plot_loop_raises cf tn e item after before : forall all_means,
  forallb (sound float numpy fs) before = true ->
  (forall all_means',
      raises (plot_series float numpy fs cf tn all_means' item) e []) ->
  raises (plot_loop float numpy fs cf tn (before ++ item :: after) all_means)
    e (flat_map (plot_calls float numpy fs cf tn) before).
Proof.
  induction before as [|b before IH]; intros all_means Hs Hr; simpl.
  - apply raises_bind_l, Hr.
  - apply andb_true_iff in Hs as [Hb Hs].
    eapply raises_bind_r; [now apply plot_series_sound|now apply IH].
Qed.

Lemma box_loop_raises cf e item after before : forall st,
  forallb (sound float numpy fs) before = true ->
  (forall st', raises (box_series float numpy fs cf st' item) e []) ->
  raises (box_loop float numpy fs cf (before ++ item :: after) st) e [].
Proof.
  induction before as [|b before IH]; intros st Hs Hr; simpl.
  - apply raises_bind_l, Hr.
  - apply andb_true_iff in Hs as [Hb Hs].
    change (@nil (call F)) with (@nil (call F) ++ []).
    eapply raises_bind_r; [now apply box_series_sound|now apply IH].
Qed.

(** C2, as amended: a present series whose file gives no numeric row is
    not excluded.  The reader returns an empty one-dimensional array
    without raising, and selecting a column of it raises IndexError in both
    [plot_with_stats] and [create_box_plots]: the summarizer stops at that
    series, after the plots of the series before it, with no text box of
    means, no box plot and no significance test.  No division by zero
    takes place. *)
Theorem empty_series_raises_IndexError (param_name ylabel title : string)
    (cf : F) (tn : bool) (files_dict before after : list (string * string))
    (item : string * string) (lines : list string) :
  files_dict = before ++ item :: after ->
  forallb (sound float numpy fs) before = true ->
  fs (snd item) = Some lines ->
  filter (numeric_line float) lines = [] ->
  read_xvg float numpy lines = Ok (Vec [], snd (read_lines float lines)) /\
  raises (create_box_plots float numpy ttest_ind fs param_name files_dict
            ylabel cf) IndexError [] /\
  raises (plot_with_stats float numpy fs files_dict ylabel title cf tn)
    IndexError (flat_map (plot_calls float numpy fs cf tn) before).
Proof.
  intros -> Hs Hfs Hn. split; [now apply read_xvg_no_rows|]. split.
  - apply raises_bind_l, box_loop_raises; [assumption|].
    intros st'. eapply box_series_no_rows; eassumption.
  - apply raises_bind_l, plot_loop_raises; [assumption|].
    intros am. eapply plot_series_no_rows; eassumption.
Qed.

(** *** The significance test *)

(** C1, as amended: when at least two series are present and every present
    series can be read, [create_box_plots] runs exactly one t-test; its
    first sample is the equilibrated window of the second present series in
    the order of [files_dict], its second sample the window of the first
    present series, each window being the converted values from index
    floor(N/2) on; the statistic and the p-value come back from it, and the
    p-value is the one that is printed. *)
Theorem significance_of_first_two_present (param_name ylabel : string)
    (cf : F) (files_dict rest : list (string * string))
    (first second : string * string) :
  forallb (sound float numpy fs) files_dict = true ->
  filter (present fs) files_dict = first :: second :: rest ->
  exists x1 y1 label1 color1 x2 y2 label2 color2 calls,
    series float numpy fs first = Some (x1, y1, label1, color1) /\
    series float numpy fs second = Some (x2, y2, label2, color2) /\
    emits (create_box_plots float numpy ttest_ind fs param_name files_dict
             ylabel cf) tt calls /\
    let a := skipn (List.length y2 / 2) (map (fun v => mul v cf) y2) in
    let b := skipn (List.length y1 / 2) (map (fun v => mul v cf) y1) in
    filter is_ttest calls = [stats_ttest_ind a b] /\
    filter is_p_value calls =
      [ax_text_p_value (snd (ttest_ind a b))
         (if lt (snd (ttest_ind a b)) (dec 5 (-2))
          then "yellow" else "white")].
Proof.
  intros Hs Hp.
  assert (Hw : forall y : list F,
             skipn (List.length y / 2) (map (fun v => mul v cf) y)
             = second_half (scale y cf))
    by (intros y; unfold second_half, scale; now rewrite length_map).
  destruct (present_series files_dict first Hs)
    as (x1 & y1 & l1 & c1 & H1); [rewrite Hp; simpl; auto|].
  destruct (present_series files_dict second Hs)
    as (x2 & y2 & l2 & c2 & H2); [rewrite Hp; simpl; auto|].
  exists x1, y1, l1, c1, x2, y2, l2, c2,
    (box_log float numpy ttest_ind fs param_name files_dict ylabel cf).
  split; [assumption|]. split; [assumption|].
  split; [now apply create_box_plots_sound|].
  cbv zeta. rewrite !Hw.
  assert (Hws : flat_map (windows_of float numpy fs cf) files_dict =
                second_half (scale y1 cf) :: second_half (scale y2 cf)
                :: flat_map (windows_of float numpy fs cf) rest).
  { rewrite windows_present, Hp. simpl. unfold windows_of at 1 2.
    now rewrite H1, H2. }
  unfold box_log. rewrite Hws. cbn zeta. cbn [significance_calls].
  split.
  - cbn [filter is_ttest]. rewrite !filter_app.
    now rewrite (proj1 (no_ttest_in_patches _)).
  - cbn [filter is_p_value]. rewrite !filter_app.
    now rewrite (proj2 (no_ttest_in_patches _)).
Qed.

(** C6, as amended: with fewer than two present series, each of which can
    be read, no t-test is run and nothing is raised.  With no present series
    [create_box_plots] makes no call at all and [plot_with_stats] only lays
    out the empty axes: no curve, no mean, no text box.  With exactly one
    present series the trailing mean is computed, drawn and printed, and the
    box plot of its window is drawn without a t-test; the mean is the one
    of [np_mean] when the window has at most [NPY_BUFSIZE] entries. *)
Theorem fewer_than_two_present_no_test (param_name ylabel title : string)
    (cf : F) (tn : bool) (files_dict : list (string * string)) :
  forallb (sound float numpy fs) files_dict = true ->
  List.length (filter (present fs) files_dict) < 2 ->
  exists calls_p calls_b,
    emits (plot_with_stats float numpy fs files_dict ylabel title cf tn) tt
      calls_p /\
    emits (create_box_plots float numpy ttest_ind fs param_name files_dict
             ylabel cf) tt calls_b /\
    filter is_ttest calls_b = [] /\
    filter is_p_value calls_b = [] /\
    match filter (present fs) files_dict with
    | [] => calls_p = layout_calls tn ylabel title /\ calls_b = []
    | item :: _ =>
        exists x y label color mean_y,
          series float numpy fs item = Some (x, y, label, color) /\
          (List.length (second_half (scale y cf)) <= NPY_BUFSIZE ->
           mean_y = np_mean (second_half (scale y cf))) /\
          calls_p =
            [ax_plot (if tn then divide x (of_int 1000) else x) (scale y cf)
               label color;
             ax_axhline mean_y color]
            ++ layout_calls tn ylabel title
            ++ [ax_text_means [(label, mean_y)]] /\
          calls_b =
            [ax_boxplot [second_half (scale y cf)] [label];
             patch_set_facecolor 0 color; patch_set_alpha 0;
             ax_set_ylabel ylabel; ax_grid;
             ax_set_title (String.append param_name " Distribution")]
    end.
Proof.
  intros Hs Hlen.
  exists (plot_log float numpy fs files_dict ylabel title cf tn),
    (box_log float numpy ttest_ind fs param_name files_dict ylabel cf).
  split; [now apply plot_with_stats_sound|].
  split; [now apply create_box_plots_sound|].
  unfold plot_log, box_log.
  rewrite windows_present, labels_present, colors_present, means_present,
    plot_calls_present.
  pose proof (present_series files_dict) as Hser.
  destruct (filter (present fs) files_dict) as [|item [|item' items]];
    [| |simpl in Hlen; lia].
  - simpl. repeat split; reflexivity.
  - destruct (Hser item Hs) as (x & y & l & c & E); [simpl; auto|].
    simpl. unfold windows_of, labels_of, colors_of, means_of, plot_calls.
    rewrite E. simpl. repeat split; try reflexivity.
    exists x, y, l, c, (np_mean (second_half (scale y cf))).
    repeat split; reflexivity.
Qed.

(** *** The equilibrated window *)

Lemma second_half_scale (y : list F) (c : F) :
  second_half (scale y c) = scale (second_half y) c.
Proof.
  unfold second_half, scale. now rewrite length_map, skipn_map.
Qed.

(** C4: for a series of N >= 1 values, the window over which
    [plot_with_stats] takes the mean and the window that [create_box_plots]
    hands to the box plot and to the test are the same suffix of the
    converted values, the one that starts at index floor(N/2); it has
    N - floor(N/2) >= 1 entries, and one entry when N = 1. *)
Theorem equilibrated_window_is_second_half (cf : F) (tn : bool)
    (all_means : list (string * F)) (st : Lists F) (item : string * string)
    (x y : list F) (label color : string) :
  series float numpy fs item = Some (x, y, label, color) ->
  1 <= List.length y ->
  let N := List.length y in
  let window := skipn (N / 2) (scale y cf) in
  emits (plot_series float numpy fs cf tn all_means item)
    (all_means ++ [(label, np_mean window)])
    [ax_plot (if tn then divide x (of_int 1000) else x) (scale y cf)
       label color;
     ax_axhline (np_mean window) color] /\
  emits (box_series float numpy fs cf st item)
    {| data_list := data_list st ++ [window];
       labels_list := labels_list st ++ [label];
       colors_list := colors_list st ++ [color] |} [] /\
  List.length window = N - N / 2 /\
  1 <= List.length window /\
  (N = 1 -> List.length window = 1).
Proof.
  intros Hser HN N window.
  assert (Hw : window = second_half (scale y cf)).
  { unfold window, N, second_half, scale. now rewrite length_map. }
  assert (Hlen : List.length window = N - N / 2).
  { unfold window, scale. now rewrite length_skipn, length_map. }
  assert (Hhalf : N / 2 < N) by (apply Nat.div_lt; lia).
  split; [rewrite Hw; now apply plot_series_present|].
  split.
  - assert (Hsound : sound float numpy fs item = true).
    { unfold sound. rewrite Hser. apply orb_true_r. }
    pose proof (box_series_sound cf st item Hsound) as Hb.
    unfold windows_of, labels_of, colors_of in Hb. rewrite Hser in Hb.
    now rewrite Hw.
  - rewrite Hlen. repeat split; [lia|].
    intros ->. reflexivity.
Qed.

End SummarizerFacts.

(* ===================================================================== *)
(** ** Conversion, window and mean *)
(* ===================================================================== *)

(** The bound on the nesting of the calls of the pairwise sum is not
    reached: any two bounds that are at least the number of entries give
    the same sum. *)
Lemma pairwise_sum_depth {F : Type} `{Arith F} (d : nat) :
  forall (d' : nat) (a : list F),
    List.length a <= d -> List.length a <= d' ->
    pairwise_sum d a = pairwise_sum d' a.
Proof.
  induction d as [|d IH]; intros d' a Hd Hd'.
  - destruct a; [|simpl in Hd; lia]. destruct d'; reflexivity.
  - destruct d' as [|d']; [destruct a; [reflexivity|simpl in Hd'; lia]|].
    cbn [pairwise_sum].
    destruct (Nat.leb_spec (List.length a) PW_BLOCKSIZE) as [_|Hn];
      [reflexivity|].
    unfold PW_BLOCKSIZE in Hn. cbv zeta.
    pose proof (Nat.div_mod_eq (List.length a) 2) as H2.
    pose proof (Nat.mod_upper_bound (List.length a) 2) as H2'.
    pose proof (Nat.mod_upper_bound (List.length a / 2) 8) as H8.
    f_equal; apply IH; rewrite ?length_firstn, ?length_skipn; lia.
Qed.


Section ExactMean.
Local Open Scope Q_scope.

Lemma fold_left_Qplus w : forall acc, fold_left Qplus w acc == acc + sumQ w.
Proof.
  induction w as [|v w IH]; intros acc; simpl; [ring|].
  rewrite IH. ring.
Qed.

Lemma sumQ_scale w c : sumQ (map (fun v => v * c) w) == sumQ w * c.
Proof.
  induction w as [|v w IH]; simpl; [ring|]. rewrite IH. ring.
Qed.

Lemma sumQ_app w w' : sumQ (w ++ w') == sumQ w + sumQ w'.
Proof.
  induction w as [|v w IH]; simpl; [ring|]. rewrite IH. ring.
Qed.

Lemma accumulators_exact (n : nat) :
  forall (a : list Q) r0 r1 r2 r3 r4 r5 r6 r7,
    (List.length a <= n)%nat ->
    accumulators r0 r1 r2 r3 r4 r5 r6 r7 a
    == r0 + r1 + r2 + r3 + r4 + r5 + r6 + r7 + sumQ a.
Proof.
  induction n as [|n IH]; intros a r0 r1 r2 r3 r4 r5 r6 r7 Hn;
    destruct a as [|a0 [|a1 [|a2 [|a3 [|a4 [|a5 [|a6 [|a7 a']]]]]]]];
    cbn [accumulators]; try (rewrite fold_left_Qplus; simpl; ring);
    try (simpl in Hn; lia).
  rewrite IH by (simpl in Hn; lia). simpl. ring.
Qed.

Lemma block_sum_exact (a : list Q) : block_sum a == sumQ a.
Proof.
  destruct a as [|a0 [|a1 [|a2 [|a3 [|a4 [|a5 [|a6 [|a7 a']]]]]]]];
    cbn [block_sum];
    try (rewrite fold_left_Qplus; unfold of_int; simpl; ring).
  rewrite (accumulators_exact (List.length a')) by lia. simpl. ring.
Qed.

Lemma pairwise_sum_exact (depth : nat) :
  forall a : list Q, pairwise_sum depth a == sumQ a.
Proof.
  induction depth as [|depth IH]; intros a; cbn [pairwise_sum];
    destruct (List.length a <=? PW_BLOCKSIZE)%nat;
    try apply block_sum_exact.
  cbv zeta. change (@add Q _) with Qplus. rewrite !IH, <- sumQ_app.
  now rewrite firstn_skipn.
Qed.

Lemma reduce_exact (turns : nat) :
  forall (out : Q) (w : list Q),
    (List.length w <= turns)%nat -> reduce turns out w == out + sumQ w.
Proof.
  induction turns as [|turns IH]; intros out w Hn.
  - destruct w; [simpl; ring|simpl in Hn; lia].
  - destruct w as [|v w]; [simpl; ring|].
    cbn [reduce]. cbv zeta. change (@add Q _) with Qplus.
    rewrite IH.
    + rewrite pairwise_sum_exact.
      rewrite <- (firstn_skipn NPY_BUFSIZE (v :: w)) at 3.
      rewrite sumQ_app. ring.
    + rewrite length_skipn. unfold NPY_BUFSIZE, PW_BLOCKSIZE.
      simpl in Hn |- *. lia.
Qed.

Lemma np_sum_exact (w : list Q) : np_sum w == sumQ w.
Proof.
  unfold np_sum. rewrite reduce_exact by lia. unfold of_int. simpl. ring.
Qed.

Lemma np_mean_scale_exact (w : list Q) (c : Q) :
  np_mean (scale w c) == c * np_mean w.
Proof.
  unfold np_mean. change (@truediv Q _) with Qdiv.
  rewrite !np_sum_exact. unfold scale. rewrite sumQ_scale, length_map.
  unfold Qdiv. ring.
Qed.

End ExactMean.

(** C5, as amended: the conversion is applied before the window is taken,
    and it commutes with windowing in every arithmetic, binary64 included:
    the window of the converted values is the converted window, so the two
    orders give the same trailing mean.  That mean is the conversion factor
    times the mean of the unconverted window in exact arithmetic; in
    binary64 the two may differ by rounding. *)
Theorem conversion_commutes_with_window :
  (forall (F : Type) (A : Arith F) (float : string -> option F)
          (numpy : numpy_version) (fs : string -> option (list string))
          (cf : F) (tn : bool) (all_means : list (string * F))
          (item : string * string) (x y : list F) (label color : string),
      series float numpy fs item = Some (x, y, label, color) ->
      second_half (scale y cf) = scale (second_half y) cf /\
      emits (plot_series float numpy fs cf tn all_means item)
        (all_means ++ [(label, np_mean (scale (second_half y) cf))])
        [ax_plot (if tn then divide x (of_int 1000) else x) (scale y cf)
           label color;
         ax_axhline (np_mean (scale (second_half y) cf)) color]) /\
  (forall (c : Q) (y : list Q),
      (np_mean (second_half (scale y c)) == c * np_mean (second_half y))%Q).
Proof.
  split.
  - intros F A float numpy fs cf tn all_means item x y label color Hser.
    split; [apply second_half_scale|].
    rewrite <- second_half_scale.
    exact (plot_series_present float numpy fs cf tn all_means item
             x y label color Hser).
  - intros c y. rewrite second_half_scale. apply np_mean_scale_exact.
Qed.

(* ===================================================================== *)
(** ** The claims on concrete files *)
(* ===================================================================== *)

(** C9, as amended: for the file of the ten rows (i, 2 i), i = 0..9, and
    the scale factor 10, the reader yields a matrix of shape (10, 2), the
    equilibrated window is rows 5..9, whose scaled values are 100, 120, 140,
    160 and 180, and the trailing mean of the scaled observable column is
    exactly 140.0, the value that [plot_with_stats] draws and prints. *)
Theorem ten_rows_trailing_mean (v : numpy_version) :
  exists data metadata y calls,
    read_xvg B64.float v ten_rows = Ok (data, metadata) /\
    shape data = [10; 2] /\
    column data 1 = Ok y /\
    y = map of_int [0; 2; 4; 6; 8; 10; 12; 14; 16; 18]%Z /\
    second_half y = skipn 5 y /\
    second_half (scale y ten) = map of_int [100; 120; 140; 160; 180]%Z /\
    np_mean (second_half (scale y ten)) = of_int 140 /\
    B64.float "140.0" = Some (of_int 140) /\
    plot_with_stats B64.float v fs_one files_rmsd "RMSD" "(A)" ten true []
      = (Ok tt, calls) /\
    filter (fun c => match c with ax_text_means _ => true | _ => false end)
      calls = [ax_text_means [("Apo", of_int 140)]].
Proof.
  destruct v.
  - eexists _, _, _, _. split; [vm_compute; reflexivity|].
    split; [reflexivity|]. split; [vm_compute; reflexivity|].
    repeat split; vm_compute; reflexivity.
  - eexists _, _, _, _. split; [vm_compute; reflexivity|].
    split; [reflexivity|]. split; [vm_compute; reflexivity|].
    repeat split; vm_compute; reflexivity.
Qed.

(** C9 fails as stated: the trailing mean of the scaled column is 140.0,
    which is not 70.0. *)
Lemma ten_rows_trailing_mean_is_not_70 :
  np_mean (second_half (scale (y_of ten_rows) ten)) = of_int 140 /\
  np_mean (second_half (scale (y_of ten_rows) ten)) <> of_int 70 /\
  SFeqb (np_mean (second_half (scale (y_of ten_rows) ten))) (of_int 70)
    = false /\
  snd (plot_with_stats B64.float since_1_24 fs_one files_rmsd "RMSD" "(A)"
         ten true [])
    = [ax_plot (divide (x_of ten_rows) (of_int 1000))
         (scale (y_of ten_rows) ten) "Apo" "#2E86AB";
       ax_axhline (of_int 140) "#2E86AB";
       ax_set_xlabel "Time (ns)"; ax_set_ylabel "RMSD"; ax_legend; ax_grid;
       ax_set_title "(A)"; ax_text_means [("Apo", of_int 140)]].
Proof.
  split; [vm_compute; reflexivity|].
  split; [vm_compute; discriminate|].
  split; vm_compute; reflexivity.
Qed.

(** C2 fails as stated: with the apo run and a test run whose file has no
    numeric line, both functions raise IndexError instead of leaving the
    test run out. *)
Lemma empty_series_is_not_excluded :
  read_xvg B64.float since_1_24 no_rows
    = Ok (Vec [], {| title := ""; xlabel := ""; ylabel := "" |}) /\
  create_box_plots B64.float since_1_24 some_ttest_ind fs_empty "RMSD"
    files_rmsd "RMSD" ten [] = (Raise IndexError, []) /\
  fst (plot_with_stats B64.float since_1_24 fs_empty files_rmsd "RMSD" "(A)"
         ten true []) = Raise IndexError /\
  fst (plot_with_stats B64.float before_1_24 fs_empty files_rmsd "RMSD"
         "(A)" ten true []) = Raise IndexError.
Proof. repeat split; vm_compute; reflexivity. Qed.

(** C1 fails as stated: with three present series, of which the first two
    can be read and the third has no numeric line, [create_box_plots] raises
    IndexError in its loop, before the test: no t-test is run and nothing
    is drawn. *)
Lemma unreadable_third_series_prevents_the_test :
  List.length (filter (present fs_third_empty) files_rmsd) = 3 /\
  forallb (sound B64.float since_1_24 fs_third_empty)
    [("apo", "rmsd_apo.xvg"); ("test", "rmsd_test.xvg")] = true /\
  create_box_plots B64.float since_1_24 some_ttest_ind fs_third_empty "RMSD"
    files_rmsd "RMSD" ten [] = (Raise IndexError, []) /\
  create_box_plots B64.float before_1_24 some_ttest_ind fs_third_empty "RMSD"
    files_rmsd "RMSD" ten [] = (Raise IndexError, []).
Proof. repeat split; vm_compute; reflexivity. Qed.

(** C6 fails as stated: with one present series, whose file has no numeric
    line, both functions raise IndexError: the test is not skipped without
    error, and no mean is computed. *)
Lemma one_empty_series_is_an_error :
  List.length (filter (present fs_only_empty) files_rmsd) = 1 /\
  plot_with_stats B64.float since_1_24 fs_only_empty files_rmsd "RMSD" "(A)"
    ten true [] = (Raise IndexError, []) /\
  create_box_plots B64.float since_1_24 some_ttest_ind fs_only_empty "RMSD"
    files_rmsd "RMSD" ten [] = (Raise IndexError, []) /\
  plot_with_stats B64.float before_1_24 fs_only_empty files_rmsd "RMSD" "(A)"
    ten true [] = (Raise IndexError, []) /\
  create_box_plots B64.float before_1_24 some_ttest_ind fs_only_empty "RMSD"
    files_rmsd "RMSD" ten [] = (Raise IndexError, []).
Proof. repeat split; vm_compute; reflexivity. Qed.

(** C5 fails as stated in binary64: for the values 0, 0.1, 0.2 and the
    factor 10 the trailing mean of the converted series is 1.5, while 10
    times the trailing mean of the unconverted series is one unit in the
    last place above it. *)
Lemma converted_mean_is_not_scaled_mean :
  let y := y_of drift_rows in
  let converted := np_mean (second_half (scale y ten)) in
  let unconverted := np_mean (second_half y) in
  B64.float "1.5" = Some converted /\
  B64.float "1.5000000000000002" = Some (mul ten unconverted) /\
  mul unconverted ten = mul ten unconverted /\
  converted <> mul ten unconverted /\
  SFeqb converted (mul ten unconverted) = false.
Proof.
  cbv zeta. split; [vm_compute; reflexivity|].
  split; [vm_compute; reflexivity|]. split; [vm_compute; reflexivity|].
  split; [vm_compute; discriminate|vm_compute; reflexivity].
Qed.

(** C7 fails as stated: a title line whose closing quote is missing sets
    the title to the text after the opening quote, and a title line without
    quotes after a good one leaves the earlier title, not the empty
    string. *)
Lemma unclosed_quote_sets_the_field :
  title (snd (read_lines B64.float [title_unclosed])) = "RMSD" /\
  title (snd (read_lines B64.float [title_unclosed])) <> "" /\
  title (snd (read_lines B64.float [title_closed; title_unquoted])) = "RMSD".
Proof. repeat split; vm_compute; try reflexivity; discriminate. Qed.

(** C10 fails as stated with NumPy 1.24 or later: a file with a row of two
    and a row of three numbers makes the reader raise. *)
Lemma ragged_rows_raise :
  fst (read_lines B64.float ragged_rows)
    = [map of_int [1; 2]%Z; map of_int [3; 4; 5]%Z] /\
  read_xvg B64.float since_1_24 ragged_rows = Raise ValueError.
Proof. split; vm_compute; reflexivity. Qed.

(* ===================================================================== *)
(** ** The theorems at concrete inputs *)
(* ===================================================================== *)

(** The theorem of C3 on a file with a header, an annotation, an empty line,
    four numeric lines and one line that does not parse. *)
Lemma read_xvg_one_row_per_numeric_line_witness :
  well_formed B64.float four_rows = true /\
  exists a metadata rows,
    read_xvg B64.float since_1_24 four_rows = Ok (a, metadata) /\
    np_array since_1_24 rows = Ok a /\
    Forall2 (row_of B64.float) (filter (numeric_line B64.float) four_rows)
      rows /\
    nrows a = List.length (filter (numeric_line B64.float) four_rows).
Proof.
  split; [vm_compute; reflexivity|].
  apply (read_xvg_one_row_per_numeric_line B64.float since_1_24 four_rows).
  vm_compute; reflexivity.
Defined.

(** The theorem of C7 on a title line with a missing closing quote and on
    one without quotes. *)
Lemma annotation_line_value_witness :
  PyStr.startswith "@" (PyStr.strip title_unclosed) = true /\
  snd (read_line B64.float ([], empty_metadata) title_unclosed)
    = set_title empty_metadata "RMSD" /\
  read_line B64.float ([], empty_metadata) title_unquoted
    = ([], empty_metadata).
Proof.
  split; [reflexivity|]. split.
  - destruct (annotation_line_value B64.float ([], empty_metadata)
                title_unclosed eq_refl) as (_ & _ & _ & Hv).
    exact (Hv "@    title " "RMSD" eq_refl eq_refl (or_introl eq_refl)).
  - destruct (annotation_line_value B64.float ([], empty_metadata)
                title_unquoted eq_refl) as (_ & _ & Hn & _).
    exact (Hn eq_refl).
Defined.

(** The theorem of C1 when the apo and the test runs exist: the first sample
    is the last two of the four converted values of the test run, the second
    sample the last five of the ten converted values of the apo run. *)
Lemma significance_of_first_two_present_witness :
  forallb (sound B64.float since_1_24 fs_two) files_rmsd = true /\
  filter (present fs_two) files_rmsd
    = [("apo", "rmsd_apo.xvg"); ("test", "rmsd_test.xvg")] /\
  exists calls,
    emits (create_box_plots B64.float since_1_24 some_ttest_ind fs_two "RMSD"
             files_rmsd "RMSD" ten) tt calls /\
    filter is_ttest calls =
      [stats_ttest_ind (skipn 2 (scale (y_of four_rows) ten))
         (map of_int [100; 120; 140; 160; 180]%Z)] /\
    List.length (filter is_p_value calls) = 1.
Proof.
  assert (Hs : forallb (sound B64.float since_1_24 fs_two) files_rmsd = true)
    by (vm_compute; reflexivity).
  assert (Hp : filter (present fs_two) files_rmsd
               = [("apo", "rmsd_apo.xvg"); ("test", "rmsd_test.xvg")])
    by reflexivity.
  split; [exact Hs|]. split; [exact Hp|].
  destruct (significance_of_first_two_present B64.float since_1_24
              some_ttest_ind fs_two "RMSD" "RMSD" ten files_rmsd []
              ("apo", "rmsd_apo.xvg") ("test", "rmsd_test.xvg") Hs Hp)
    as (x1 & y1 & l1 & c1 & x2 & y2 & l2 & c2 & calls
        & H1 & H2 & He & Ht & Hv).
  vm_compute in H1. vm_compute in H2.
  injection H1 as <- <- <- <-. injection H2 as <- <- <- <-.
  exists calls. split; [exact He|]. rewrite Ht, Hv.
  split; [vm_compute; reflexivity|reflexivity].
Defined.

(** The theorem of C2 when the file of the test run has no numeric line. *)
Lemma empty_series_raises_IndexError_witness :
  forallb (sound B64.float since_1_24 fs_empty) [("apo", "rmsd_apo.xvg")]
    = true /\
  fs_empty "rmsd_test.xvg" = Some no_rows /\
  filter (numeric_line B64.float) no_rows = [] /\
  read_xvg B64.float since_1_24 no_rows
    = Ok (Vec [], snd (read_lines B64.float no_rows)) /\
  raises (create_box_plots B64.float since_1_24 some_ttest_ind fs_empty "RMSD"
            files_rmsd "RMSD" ten) IndexError [] /\
  raises (plot_with_stats B64.float since_1_24 fs_empty files_rmsd "RMSD"
            "(A)" ten true)
    IndexError
    (flat_map (plot_calls B64.float since_1_24 fs_empty ten true)
       [("apo", "rmsd_apo.xvg")]).
Proof.
  assert (Hs : forallb (sound B64.float since_1_24 fs_empty)
                 [("apo", "rmsd_apo.xvg")] = true)
    by (vm_compute; reflexivity).
  assert (Hn : filter (numeric_line B64.float) no_rows = [])
    by (vm_compute; reflexivity).
  split; [exact Hs|]. split; [reflexivity|]. split; [exact Hn|].
  exact (empty_series_raises_IndexError B64.float since_1_24 some_ttest_ind
           fs_empty "RMSD" "RMSD" "(A)" ten true files_rmsd
           [("apo", "rmsd_apo.xvg")] [("standard", "rmsd_standard.xvg")]
           ("test", "rmsd_test.xvg") no_rows eq_refl Hs eq_refl Hn).
Defined.

(** The theorem of C4 on the series of ten values. *)
Lemma equilibrated_window_is_second_half_witness :
  series B64.float since_1_24 fs_one ("apo", "rmsd_apo.xvg")
    = Some (x_of ten_rows, y_of ten_rows, "Apo", "#2E86AB") /\
  1 <= List.length (y_of ten_rows) /\
  List.length (skipn (List.length (y_of ten_rows) / 2)
                 (scale (y_of ten_rows) ten))
    = List.length (y_of ten_rows) - List.length (y_of ten_rows) / 2 /\
  1 <= List.length (skipn (List.length (y_of ten_rows) / 2)
                      (scale (y_of ten_rows) ten)).
Proof.
  assert (Hser : series B64.float since_1_24 fs_one ("apo", "rmsd_apo.xvg")
                 = Some (x_of ten_rows, y_of ten_rows, "Apo", "#2E86AB"))
    by (vm_compute; reflexivity).
  assert (HN : 1 <= List.length (y_of ten_rows))
    by (vm_compute; lia).
  split; [exact Hser|]. split; [exact HN|].
  destruct (equilibrated_window_is_second_half B64.float since_1_24 fs_one
              ten true []
              {| data_list := []; labels_list := []; colors_list := [] |}
              ("apo", "rmsd_apo.xvg") (x_of ten_rows) (y_of ten_rows)
              "Apo" "#2E86AB" Hser HN) as (_ & _ & Hlen & Hpos & _).
  split; [exact Hlen|exact Hpos].
Defined.

(** The theorem of C5 on the series of ten values in binary64. *)
Lemma conversion_commutes_with_window_witness :
  series B64.float since_1_24 fs_one ("apo", "rmsd_apo.xvg")
    = Some (x_of ten_rows, y_of ten_rows, "Apo", "#2E86AB") /\
  second_half (scale (y_of ten_rows) ten)
    = scale (second_half (y_of ten_rows)) ten.
Proof.
  assert (Hser : series B64.float since_1_24 fs_one ("apo", "rmsd_apo.xvg")
                 = Some (x_of ten_rows, y_of ten_rows, "Apo", "#2E86AB"))
    by (vm_compute; reflexivity).
  split; [exact Hser|].
  exact (proj1 (proj1 conversion_commutes_with_window B64.t B64.arith
                  B64.float since_1_24 fs_one ten true []
                  ("apo", "rmsd_apo.xvg") (x_of ten_rows) (y_of ten_rows)
                  "Apo" "#2E86AB" Hser)).
Defined.

(** The theorem of C6 when only the apo run exists, where the mean that is
    drawn is 140.0, and when no run exists. *)
Lemma fewer_than_two_present_no_test_witness :
  (forallb (sound B64.float since_1_24 fs_one) files_rmsd = true /\
   List.length (filter (present fs_one) files_rmsd) < 2 /\
   exists calls_p calls_b,
     emits (plot_with_stats B64.float since_1_24 fs_one files_rmsd "RMSD"
              "(A)" ten true) tt calls_p /\
     emits (create_box_plots B64.float since_1_24 some_ttest_ind fs_one
              "RMSD" files_rmsd "RMSD" ten) tt calls_b /\
     filter is_ttest calls_b = [] /\
     In (ax_axhline (of_int 140) "#2E86AB") calls_p /\
     In (ax_text_means [("Apo", of_int 140)]) calls_p) /\
  (forallb (sound B64.float since_1_24 fs_none) files_rmsd = true /\
   List.length (filter (present fs_none) files_rmsd) < 2 /\
   emits (create_box_plots B64.float since_1_24 some_ttest_ind fs_none
            "RMSD" files_rmsd "RMSD" ten) tt []).
Proof.
  assert (Hs : forallb (sound B64.float since_1_24 fs_one) files_rmsd = true)
    by (vm_compute; reflexivity).
  assert (Hl : List.length (filter (present fs_one) files_rmsd) < 2)
    by (vm_compute; lia).
  assert (Hs0 : forallb (sound B64.float since_1_24 fs_none) files_rmsd
                = true) by reflexivity.
  assert (Hl0 : List.length (filter (present fs_none) files_rmsd) < 2)
    by (vm_compute; lia).
  split.
  - split; [exact Hs|]. split; [exact Hl|].
    destruct (fewer_than_two_present_no_test B64.float since_1_24
                some_ttest_ind fs_one "RMSD" "RMSD" "(A)" ten true files_rmsd
                Hs Hl) as (cp & cb & Hp & Hb & Ht & _ & Hm).
    change (filter (present fs_one) files_rmsd)
      with [("apo", "rmsd_apo.xvg")] in Hm.
    destruct Hm as (x & y & l & c & m & Hser & Hmean & Hcp & _).
    vm_compute in Hser. injection Hser as <- <- <- <-.
    rewrite (Hmean ltac:(apply Nat.leb_le; vm_compute; reflexivity)) in Hcp.
    exists cp, cb. split; [exact Hp|]. split; [exact Hb|].
    split; [exact Ht|]. rewrite Hcp.
    split; [right; left; vm_compute; reflexivity|].
    do 7 right. left. vm_compute. reflexivity.
  - split; [exact Hs0|]. split; [exact Hl0|].
    destruct (fewer_than_two_present_no_test B64.float since_1_24
                some_ttest_ind fs_none "RMSD" "RMSD" "(A)" ten true files_rmsd
                Hs0 Hl0) as (cp & cb & _ & Hb & _ & _ & Hm).
    cbn in Hm. destruct Hm as [_ ->]. exact Hb.
Defined.

(* ===================================================================== *)
(** ** More about strings *)
(* ===================================================================== *)

Module StripFacts.
Import PyStr.

Lemma lstrip_cases s :
  lstrip s = EmptyString \/
  exists c t, lstrip s = String c t /\ is_space c = false.
Proof.
  induction s as [|c s IH]; cbn [lstrip]; [now left|].
  destruct (is_space c) eqn:Hc; [exact IH|]. right. eauto.
Qed.

Lemma rstrip_head c t :
  is_space c = false -> exists t', rstrip (String c t) = String c t'.
Proof.
  intros Hc. cbn [rstrip]. destruct (rstrip t); [rewrite Hc|]; eauto.
Qed.

Lemma strip_cases s :
  strip s = EmptyString \/
  exists c t, strip s = String c t /\ is_space c = false.
Proof.
  unfold strip. destruct (lstrip_cases s) as [->|(c & t & -> & Hc)];
    [now left|].
  right. destruct (rstrip_head c t Hc) as [t' ->]. eauto.
Qed.

Lemma split_head c t : is_space c = false -> split (String c t) <> [].
Proof.
  intros Hc. cbn [split]. rewrite Hc.
  destruct t as [|d t']; [discriminate|].
  destruct (is_space d); [discriminate|].
  destruct (split (String d t')); discriminate.
Qed.

Lemma split_strip_nonempty raw :
  strip raw <> EmptyString -> split (strip raw) <> [].
Proof.
  intros Hne. destruct (strip_cases raw) as [E|(c & t & E & Hc)];
    [contradiction|].
  rewrite E. now apply split_head.
Qed.

Lemma lstrip_blank_app l s :
  lstrip l = EmptyString -> lstrip (String.append l s) = lstrip s.
Proof.
  induction l as [|c l IH]; cbn [lstrip String.append]; [reflexivity|].
  destruct (is_space c); [exact IH|discriminate].
Qed.

Lemma rstrip_blank r : lstrip r = EmptyString -> rstrip r = EmptyString.
Proof.
  induction r as [|c r IH]; cbn [lstrip rstrip]; [reflexivity|].
  destruct (is_space c); [|discriminate]. intros Hr. now rewrite IH.
Qed.

Lemma rstrip_app_blank s r :
  lstrip r = EmptyString -> rstrip (String.append s r) = rstrip s.
Proof.
  intros Hr. induction s as [|c s IH]; cbn [rstrip String.append].
  - now apply rstrip_blank.
  - now rewrite IH.
Qed.

Lemma lstrip_app s r :
  lstrip s <> EmptyString ->
  lstrip (String.append s r) = String.append (lstrip s) r.
Proof.
  induction s as [|c s IH]; cbn [lstrip String.append]; [contradiction|].
  destruct (is_space c); [exact IH|reflexivity].
Qed.

Lemma strip_padded l s r :
  lstrip l = EmptyString -> lstrip r = EmptyString ->
  strip (String.append l (String.append s r)) = strip s.
Proof.
  intros Hl Hr. unfold strip. rewrite (lstrip_blank_app l _ Hl).
  destruct (lstrip s) as [|c t] eqn:Hs.
  - rewrite (lstrip_blank_app s r Hs), Hr. reflexivity.
  - rewrite lstrip_app by (rewrite Hs; discriminate).
    rewrite Hs. now apply rstrip_app_blank.
Qed.

End StripFacts.

Lemma last_cons_default {A} (l : list A) : forall (a d d' : A),
  last (a :: l) d = last (a :: l) d'.
Proof.
  induction l as [|b l IH]; intros a d d'; [reflexivity|].
  change (last (b :: l) d = last (b :: l) d'). apply IH.
Qed.

Lemma last_app_default {A} (xs ys : list A) (d : A) :
  last (xs ++ ys) d = last ys (last xs d).
Proof.
  revert d; induction xs as [|x xs IH]; intros d; [reflexivity|].
  destruct xs as [|x' xs'].
  - destruct ys as [|y ys]; [reflexivity|].
    change (last (y :: ys) d = last (y :: ys) x). apply last_cons_default.
  - change (last ((x' :: xs') ++ ys) d = last ys (last (x' :: xs') d)).
    apply IH.
Qed.

(* ===================================================================== *)
(** ** More about the reader *)
(* ===================================================================== *)

Section MoreReaderFacts.
Context {F : Type} `{Arith F}.
Variable float : string -> option F.

Lemma read_line_skipped st raw :
  kept raw = false -> read_line float st raw = st.
Proof.
  unfold kept, read_line. destruct st as [dl md].
  destruct (String.eqb (PyStr.strip raw) "" ||
            PyStr.startswith "#" (PyStr.strip raw)); [reflexivity|discriminate].
Qed.

Lemma fold_read_line_kept lines : forall st,
  fold_left (read_line float) (filter kept lines) st =
  fold_left (read_line float) lines st.
Proof.
  induction lines as [|raw lines IH]; intros st; simpl; [reflexivity|].
  destruct (kept raw) eqn:Hk; simpl; [apply IH|].
  now rewrite (read_line_skipped st raw Hk).
Qed.

(** X1: the reader ignores the lines that are empty once stripped and the
    lines that start with '#': a file and the same file without them give
    the same array and the same metadata. *)
Theorem read_xvg_ignores_comments (v : numpy_version) (lines : list string) :
  read_xvg float v (filter kept lines) = read_xvg float v lines.
Proof.
  unfold read_xvg, read_lines. now rewrite fold_read_line_kept.
Qed.

Lemma read_line_strip st raw raw' :
  PyStr.strip raw' = PyStr.strip raw ->
  read_line float st raw' = read_line float st raw.
Proof. intros E. unfold read_line. now rewrite E. Qed.

Lemma padded_strip raw raw' :
  padded raw raw' -> PyStr.strip raw' = PyStr.strip raw.
Proof.
  intros (l & r & Hl & Hr & ->). unfold blank in Hl, Hr.
  apply StripFacts.strip_padded.
  - destruct (PyStr.lstrip l); [reflexivity|discriminate].
  - destruct (PyStr.lstrip r); [reflexivity|discriminate].
Qed.

Lemma fold_read_line_padded lines lines' :
  Forall2 padded lines lines' ->
  forall st, fold_left (read_line float) lines' st =
             fold_left (read_line float) lines st.
Proof.
  induction 1 as [|raw raw' lines lines' Hp HF IH]; intros st; simpl;
    [reflexivity|].
  rewrite (read_line_strip st raw raw' (padded_strip _ _ Hp)). apply IH.
Qed.

(** X2: white space at the ends of a line does not matter: two files whose
    lines differ only by white space added before or after them give the
    same array and the same metadata. *)
Theorem read_xvg_ignores_padding (v : numpy_version)
    (lines lines' : list string) :
  Forall2 padded lines lines' ->
  read_xvg float v lines' = read_xvg float v lines.
Proof.
  intros HF. unfold read_xvg, read_lines.
  now rewrite (fold_read_line_padded lines lines' HF).
Qed.

(** What one line does to each field of the metadata. *)
Lemma read_line_metadata st raw :
  let md := snd (read_line float st raw) in
  title md = last (values_of is_title_line [raw]) (title (snd st)) /\
  xlabel md = last (values_of is_xlabel_line [raw]) (xlabel (snd st)) /\
  ylabel md = last (values_of is_ylabel_line [raw]) (ylabel (snd st)).
Proof.
  destruct st as [dl md]. unfold values_of, is_title_line, is_xlabel_line,
    is_ylabel_line, read_line. cbn [flat_map fst snd]. rewrite !app_nil_r.
  destruct (String.eqb (PyStr.strip raw) "") eqn:He; cbn [orb].
  { apply String.eqb_eq in He. rewrite He. cbn. auto. }
  destruct (PyStr.startswith "#" (PyStr.strip raw)) eqn:Hc.
  { destruct (PyStrFacts.startswith_char _ _ Hc) as [rest ->]. cbn. auto. }
  destruct (PyStr.startswith "@" (PyStr.strip raw)) eqn:Ha; cbn [andb].
  - unfold annotation.
    destruct (PyStr.contains "title" (PyStr.lower (PyStr.strip raw)));
      cbn [negb andb].
    { destruct (quoted (PyStr.strip raw)); cbn; auto. }
    destruct (PyStr.contains "xaxis" (PyStr.lower (PyStr.strip raw)) &&
              PyStr.contains "label" (PyStr.lower (PyStr.strip raw)));
      cbn [negb andb].
    { destruct (quoted (PyStr.strip raw)); cbn; auto. }
    destruct (PyStr.contains "yaxis" (PyStr.lower (PyStr.strip raw)) &&
              PyStr.contains "label" (PyStr.lower (PyStr.strip raw)));
      cbn [negb andb].
    { destruct (quoted (PyStr.strip raw)); cbn; auto. }
    cbn. auto.
  - destruct (floats float (PyStr.split (PyStr.strip raw))); cbn; auto.
Qed.

Lemma fold_read_line_metadata lines : forall st,
  let md := snd (fold_left (read_line float) lines st) in
  title md = last (values_of is_title_line lines) (title (snd st)) /\
  xlabel md = last (values_of is_xlabel_line lines) (xlabel (snd st)) /\
  ylabel md = last (values_of is_ylabel_line lines) (ylabel (snd st)).
Proof.
  induction lines as [|raw lines IH]; intros st; [cbn; auto|].
  cbn [fold_left]. cbv zeta.
  destruct (IH (read_line float st raw)) as (Ht & Hx & Hy).
  destruct (read_line_metadata st raw) as (Ht1 & Hx1 & Hy1).
  rewrite Ht, Hx, Hy, Ht1, Hx1, Hy1.
  change (raw :: lines) with ([raw] ++ lines).
  unfold values_of. rewrite !flat_map_app, !last_app_default. auto.
Qed.

(** X3: each field of the metadata is the quoted value of the last
    annotation line that sets it, and the empty string when there is none.
    Every annotation line whose lower-case text contains [title] sets the
    title, whatever else it mentions; among the others the lines that
    contain [xaxis] and [label] set the x label; among the rest those that
    contain [yaxis] and [label] set the y label. *)
Theorem metadata_last_annotation_wins (lines : list string) :
  let metadata := snd (read_lines float lines) in
  title metadata = last (values_of is_title_line lines) "" /\
  xlabel metadata = last (values_of is_xlabel_line lines) "" /\
  ylabel metadata = last (values_of is_ylabel_line lines) "".
Proof. exact (fold_read_line_metadata lines ([], empty_metadata)). Qed.

Lemma numeric_line_row_nonempty raw row :
  numeric_line float raw = true -> row_of float raw row ->
  1 <= List.length row.
Proof.
  intros Hn Hrow. rewrite (row_of_width float raw row Hrow). unfold width.
  unfold numeric_line in Hn.
  destruct (String.eqb (PyStr.strip raw) "") eqn:He; [discriminate|].
  apply String.eqb_neq in He.
  pose proof (StripFacts.split_strip_nonempty raw He) as Hs.
  destruct (PyStr.split (PyStr.strip raw)); [contradiction|simpl; lia].
Qed.

Lemma rows_nonempty ls : forall rows,
  Forall (fun raw => numeric_line float raw = true) ls ->
  Forall2 (row_of float) ls rows ->
  Forall (fun row => 1 <= List.length row) rows.
Proof.
  induction ls as [|l ls IH]; intros rows Hn HF; inversion HF; subst;
    constructor; inversion Hn; subst.
  - eapply numeric_line_row_nonempty; eassumption.
  - now apply IH.
Qed.

Lemma rectangular_Forall (r : list F) rs :
  rectangular (r :: rs) = true ->
  Forall (fun r' => List.length r' = List.length r) (r :: rs).
Proof.
  cbn [rectangular]. intros Hr. constructor; [reflexivity|].
  rewrite forallb_forall in Hr. apply Forall_forall. intros r' Hin.
  now apply Nat.eqb_eq, Hr.
Qed.

(** X4: the array that the reader returns is either the empty array of one
    dimension, when no line is numeric, or a table with one row per numeric
    line, at least one row and at least one column, all rows of the same
    length, so that its first column can always be selected; an object
    array is returned only by NumPy before 1.24 and only for rows of
    different lengths. *)
Theorem read_xvg_table_shape (v : numpy_version) (lines : list string)
    (a : ndarray F) (metadata : Metadata) :
  read_xvg float v lines = Ok (a, metadata) ->
  match a with
  | Vec xs => xs = [] /\ filter (numeric_line float) lines = []
  | Mat ncols rows =>
      1 <= ncols /\ rows <> [] /\
      Forall (fun row => List.length row = ncols) rows /\
      List.length rows = List.length (filter (numeric_line float) lines) /\
      exists x, column a 0 = Ok x /\ List.length x = List.length rows
  | ObjVec rows => v = before_1_24 /\ rectangular rows = false
  end.
Proof.
  rewrite read_xvg_unfold.
  destruct (read_lines_rows float lines) as [rows [HF ->]].
  assert (Hne : Forall (fun row => 1 <= List.length row) rows).
  { eapply rows_nonempty; [|exact HF]. apply Forall_forall.
    intros raw Hin. now apply filter_In in Hin. }
  unfold np_array. destruct rows as [|r rs].
  - cbn. intros E; inversion E; subst.
    split; [reflexivity|]. now inversion HF.
  - destruct (rectangular (r :: rs)) eqn:Hrect.
    + cbn. intros E; inversion E; subst.
      assert (1 <= List.length r) by now inversion Hne.
      split; [assumption|]. split; [discriminate|].
      split; [now apply rectangular_Forall|].
      split; [symmetry; exact (Forall2_length HF)|].
      unfold column. destruct (0 <? List.length r) eqn:Hlt;
        [|apply Nat.ltb_ge in Hlt; lia].
      eexists. split; [reflexivity|]. now rewrite length_map.
    + destruct v; cbn; intros E; inversion E; subst. auto.
Qed.

End MoreReaderFacts.

(* ===================================================================== *)
(** ** More about the summarizer *)
(* ===================================================================== *)

Lemma getitem_absent d key :
  ~ In key (map fst d) -> getitem d key = Raise KeyError.
Proof.
  induction d as [|[k v] d IH]; cbn [getitem map fst In]; [reflexivity|].
  intros Hn. destruct (String.eqb_spec k key) as [->|_].
  - exfalso. apply Hn. now left.
  - apply IH. intros Hin. apply Hn. now right.
Qed.

Lemma getitem_raises d key e : getitem d key = Raise e -> e = KeyError.
Proof.
  induction d as [|[k v] d IH]; cbn [getitem]; [congruence|].
  destruct (String.eqb k key); [discriminate|exact IH].
Qed.

Section MoreSummarizerFacts.
Context {F : Type} `{Arith F}.
Variable float : string -> option F.
Variable numpy : numpy_version.
Variable ttest_ind : list F -> list F -> F * F.
Variable fs : string -> option (list string).

Lemma column_raises (data : ndarray F) j e :
  column data j = Raise e -> e = IndexError.
Proof.
  destruct data as [xs|ncols rows|rows]; cbn [column]; try congruence.
  destruct (j <? ncols); congruence.
Qed.

Lemma column_1_0 (data : ndarray F) :
  match column data 1 with
  | Ok _ => exists x, column data 0 = Ok x
  | Raise _ => True
  end.
Proof.
  destruct data as [xs|ncols rows|rows]; cbn [column]; auto.
  destruct (1 <? ncols) eqn:H1; [|exact I].
  apply Nat.ltb_lt in H1. destruct (0 <? ncols) eqn:H0; [eauto|].
  apply Nat.ltb_ge in H0. lia.
Qed.

Lemma column_0_1 (data : ndarray F) e :
  column data 0 = Raise e -> column data 1 = Raise e.
Proof.
  destruct data as [xs|ncols rows|rows]; cbn [column]; auto.
  destruct (0 <? ncols) eqn:H0; [discriminate|].
  apply Nat.ltb_ge in H0. intros E.
  destruct (1 <? ncols) eqn:H1; [apply Nat.ltb_lt in H1; lia|exact E].
Qed.

(** An item raises nothing exactly when it is sound. *)
Lemma failure_sound item :
  failure float numpy fs item = None <-> sound float numpy fs item = true.
Proof.
  unfold failure, sound, present, series.
  destruct (fs (snd item)) as [lines|]; cbn [negb orb];
    [|split; reflexivity].
  destruct (read_xvg float numpy lines) as [[data md]|e];
    [|split; discriminate].
  pose proof (column_1_0 data) as H10.
  destruct (column data 1) as [y|e1].
  - destruct H10 as [x ->].
    destruct (getitem LABELS (fst item)); [|split; discriminate].
    destruct (getitem COLORS (fst item));
      [split; reflexivity|split; discriminate].
  - destruct (column data 0); split; discriminate.
Qed.

Lemma plot_series_failure cf tn all_means item e :
  failure float numpy fs item = Some e ->
  raises (plot_series float numpy fs cf tn all_means item) e [].
Proof.
  destruct item as [key filepath]. unfold failure; cbn [fst snd].
  intros Hf log. unfold plot_series, bind, lift, do_call, ret.
  rewrite app_nil_r.
  destruct (fs filepath) as [lines|]; [|discriminate].
  destruct (read_xvg float numpy lines) as [[data md]|e0];
    [|now inversion Hf].
  cbn [fst].
  destruct (column data 0) as [x|e0] eqn:H0.
  - assert (Hx : (if tn
                  then result_bind (Ok x)
                         (fun c => Ok (divide c (of_int 1000)))
                  else Ok x)
                 = Ok (if tn then divide x (of_int 1000) else x))
      by now destruct tn.
    rewrite Hx.
    destruct (column data 1) as [y|e1]; [|now inversion Hf].
    destruct (getitem LABELS key); [|now inversion Hf].
    destruct (getitem COLORS key); [discriminate|now inversion Hf].
  - rewrite (column_0_1 data e0 H0) in Hf. inversion Hf; subst.
    now destruct tn.
Qed.

Lemma box_series_failure cf st item e :
  failure float numpy fs item = Some e ->
  raises (box_series float numpy fs cf st item) e [].
Proof.
  destruct item as [key filepath]. unfold failure; cbn [fst snd].
  intros Hf log. unfold box_series, bind, lift, ret. rewrite app_nil_r.
  destruct (fs filepath) as [lines|]; [|discriminate].
  destruct (read_xvg float numpy lines) as [[data md]|e0];
    [|now inversion Hf].
  cbn [fst].
  destruct (column data 1) as [y|e1]; [|now inversion Hf].
  destruct (getitem LABELS key); [|now inversion Hf].
  destruct (getitem COLORS key); [discriminate|now inversion Hf].
Qed.

(** The first failure splits the dict. *)
Lemma first_failure_cases items :
  match first_failure float numpy fs items with
  | None => forallb (sound float numpy fs) items = true
  | Some e =>
      exists before item after,
        items = before ++ item :: after /\
        forallb (sound float numpy fs) before = true /\
        failure float numpy fs item = Some e
  end.
Proof.
  induction items as [|item items IH]; cbn [first_failure]; [reflexivity|].
  destruct (failure float numpy fs item) as [e|] eqn:Hf.
  - exists [], item, items. auto.
  - apply failure_sound in Hf.
    destruct (first_failure float numpy fs items) as [e|].
    + destruct IH as (before & it & after & -> & Hs & Hit).
      exists (item :: before), it, after. cbn. rewrite Hf. auto.
    + cbn. now rewrite Hf.
Qed.

Lemma plot_with_stats_cases files_dict ylabel title cf tn :
  match first_failure float numpy fs files_dict with
  | None =>
      emits (plot_with_stats float numpy fs files_dict ylabel title cf tn) tt
        (plot_log float numpy fs files_dict ylabel title cf tn)
  | Some e =>
      exists calls,
        raises (plot_with_stats float numpy fs files_dict ylabel title cf tn)
          e calls
  end.
Proof.
  pose proof (first_failure_cases files_dict) as Hc.
  destruct (first_failure float numpy fs files_dict) as [e|].
  - destruct Hc as (before & item & after & -> & Hs & Hf).
    exists (flat_map (plot_calls float numpy fs cf tn) before).
    apply raises_bind_l, plot_loop_raises; [assumption|].
    intros am. now apply plot_series_failure.
  - now apply plot_with_stats_sound.
Qed.

Lemma create_box_plots_cases param_name files_dict ylabel cf :
  match first_failure float numpy fs files_dict with
  | None =>
      emits (create_box_plots float numpy ttest_ind fs param_name files_dict
               ylabel cf) tt
        (box_log float numpy ttest_ind fs param_name files_dict ylabel cf)
  | Some e =>
      raises (create_box_plots float numpy ttest_ind fs param_name files_dict
                ylabel cf) e []
  end.
Proof.
  pose proof (first_failure_cases files_dict) as Hc.
  destruct (first_failure float numpy fs files_dict) as [e|].
  - destruct Hc as (before & item & after & -> & Hs & Hf).
    apply raises_bind_l, box_loop_raises; [assumption|].
    intros st. now apply box_series_failure.
  - now apply create_box_plots_sound.
Qed.

Lemma plot_with_stats_outcome files_dict ylabel title cf tn log :
  fst (plot_with_stats float numpy fs files_dict ylabel title cf tn log)
  = outcome float numpy fs files_dict.
Proof.
  pose proof (plot_with_stats_cases files_dict ylabel title cf tn) as Hc.
  unfold outcome. destruct (first_failure float numpy fs files_dict).
  - destruct Hc as [calls Hr]. now rewrite Hr.
  - now rewrite Hc.
Qed.

Lemma create_box_plots_outcome param_name files_dict ylabel cf log :
  fst (create_box_plots float numpy ttest_ind fs param_name files_dict ylabel
         cf log)
  = outcome float numpy fs files_dict.
Proof.
  pose proof (create_box_plots_cases param_name files_dict ylabel cf) as Hc.
  unfold outcome. destruct (first_failure float numpy fs files_dict);
    now rewrite Hc.
Qed.

(** X5: [plot_with_stats] and [create_box_plots] accept the same files:
    for one [files_dict] they both return normally or both raise the same
    exception, whatever the labels, the title, the conversion factor, the
    time unit and the state of the axes. *)
Theorem plot_and_box_raise_alike (files_dict : list (string * string))
    (ylabel title param_name ylabel' : string) (cf cf' : F) (tn : bool)
    (log log' : list (call F)) :
  fst (plot_with_stats float numpy fs files_dict ylabel title cf tn log)
  = fst (create_box_plots float numpy ttest_ind fs param_name files_dict
           ylabel' cf' log').
Proof.
  now rewrite plot_with_stats_outcome, create_box_plots_outcome.
Qed.

(** X6: [create_box_plots] draws all or nothing: when it raises, the axes
    are as they were before the call. *)
Theorem create_box_plots_raises_before_drawing (param_name ylabel : string)
    (files_dict : list (string * string)) (cf : F) (log : list (call F))
    (e : exn) :
  fst (create_box_plots float numpy ttest_ind fs param_name files_dict ylabel
         cf log) = Raise e ->
  snd (create_box_plots float numpy ttest_ind fs param_name files_dict ylabel
         cf log) = log.
Proof.
  pose proof (create_box_plots_cases param_name files_dict ylabel cf) as Hc.
  destruct (first_failure float numpy fs files_dict).
  - rewrite Hc. cbn. intros _. apply app_nil_r.
  - rewrite Hc. discriminate.
Qed.

Lemma plot_loop_present cf tn items : forall all_means log,
  plot_loop float numpy fs cf tn (filter (present fs) items) all_means log
  = plot_loop float numpy fs cf tn items all_means log.
Proof.
  induction items as [|[key filepath] items IH]; intros am log;
    [reflexivity|].
  cbn [filter]. unfold present at 1. cbn [snd].
  destruct (fs filepath) as [lines|] eqn:Hfs.
  - cbn [plot_loop]. unfold bind.
    destruct (plot_series float numpy fs cf tn am (key, filepath) log)
      as [[am'|e] log']; [apply IH|reflexivity].
  - cbn [plot_loop]. unfold bind, plot_series. rewrite Hfs. unfold ret.
    apply IH.
Qed.

Lemma box_loop_present cf items : forall st log,
  box_loop float numpy fs cf (filter (present fs) items) st log
  = box_loop float numpy fs cf items st log.
Proof.
  induction items as [|[key filepath] items IH]; intros st log;
    [reflexivity|].
  cbn [filter]. unfold present at 1. cbn [snd].
  destruct (fs filepath) as [lines|] eqn:Hfs.
  - cbn [box_loop]. unfold bind.
    destruct (box_series float numpy fs cf st (key, filepath) log)
      as [[st'|e] log']; [apply IH|reflexivity].
  - cbn [box_loop]. unfold bind, box_series. rewrite Hfs. unfold ret.
    apply IH.
Qed.

(** X7: the entries of [files_dict] whose file does not exist play no part:
    both functions do on [files_dict] exactly what they do on its present
    entries alone. *)
Theorem absent_entries_play_no_part (param_name ylabel title : string)
    (files_dict : list (string * string)) (cf : F) (tn : bool)
    (log : list (call F)) :
  plot_with_stats float numpy fs (filter (present fs) files_dict) ylabel title
    cf tn log
  = plot_with_stats float numpy fs files_dict ylabel title cf tn log /\
  create_box_plots float numpy ttest_ind fs param_name
    (filter (present fs) files_dict) ylabel cf log
  = create_box_plots float numpy ttest_ind fs param_name files_dict ylabel cf
      log.
Proof.
  unfold plot_with_stats, create_box_plots, bind.
  now rewrite plot_loop_present, box_loop_present.
Qed.

(** X8: a present series that can be read but whose key is not a key of
    [LABELS] makes both functions raise KeyError, [plot_with_stats] after
    the curves of the series before it and before anything is drawn for this
    one. *)
Theorem unknown_key_raises_KeyError (param_name ylabel title : string)
    (cf : F) (tn : bool) (files_dict before after : list (string * string))
    (key filepath : string) (lines : list string) (data : ndarray F)
    (metadata : Metadata) (y : list F) :
  files_dict = before ++ (key, filepath) :: after ->
  forallb (sound float numpy fs) before = true ->
  fs filepath = Some lines ->
  read_xvg float numpy lines = Ok (data, metadata) ->
  column data 1 = Ok y ->
  ~ In key (map fst LABELS) ->
  raises (create_box_plots float numpy ttest_ind fs param_name files_dict
            ylabel cf) KeyError [] /\
  raises (plot_with_stats float numpy fs files_dict ylabel title cf tn)
    KeyError (flat_map (plot_calls float numpy fs cf tn) before).
Proof.
  intros -> Hs Hfs Hrd Hy Hkey.
  assert (Hf : failure float numpy fs (key, filepath) = Some KeyError).
  { unfold failure; cbn [fst snd].
    now rewrite Hfs, Hrd, Hy, (getitem_absent LABELS key Hkey). }
  split.
  - apply raises_bind_l, box_loop_raises; [assumption|].
    intros st. now apply box_series_failure.
  - apply raises_bind_l, plot_loop_raises; [assumption|].
    intros am. now apply plot_series_failure.
Qed.

(** X9: a present series whose array has no second column (an array of one
    dimension, or a table with a single column) makes both functions raise
    IndexError. *)
Theorem no_second_column_raises_IndexError (param_name ylabel title : string)
    (cf : F) (tn : bool) (files_dict before after : list (string * string))
    (item : string * string) (lines : list string) (data : ndarray F)
    (metadata : Metadata) :
  files_dict = before ++ item :: after ->
  forallb (sound float numpy fs) before = true ->
  fs (snd item) = Some lines ->
  read_xvg float numpy lines = Ok (data, metadata) ->
  nth 1 (shape data) 0 < 2 ->
  raises (create_box_plots float numpy ttest_ind fs param_name files_dict
            ylabel cf) IndexError [] /\
  raises (plot_with_stats float numpy fs files_dict ylabel title cf tn)
    IndexError (flat_map (plot_calls float numpy fs cf tn) before).
Proof.
  intros -> Hs Hfs Hrd Hshape.
  assert (Hcol : column data 1 = Raise IndexError).
  { destruct data as [xs|ncols rows|rows]; cbn [column]; try reflexivity.
    cbn in Hshape. destruct (1 <? ncols) eqn:H1; [|reflexivity].
    apply Nat.ltb_lt in H1. lia. }
  assert (Hf : failure float numpy fs item = Some IndexError).
  { unfold failure. now rewrite Hfs, Hrd, Hcol. }
  split.
  - apply raises_bind_l, box_loop_raises; [assumption|].
    intros st. now apply box_series_failure.
  - apply raises_bind_l, plot_loop_raises; [assumption|].
    intros am. now apply plot_series_failure.
Qed.





End MoreSummarizerFacts.

(* ===================================================================== *)
(** ** The drivers *)
(* ===================================================================== *)

Section DriverFacts.
Context {F : Type} `{Arith F}.
Variable float : string -> option F.
Variable numpy : numpy_version.
Variable ttest_ind : list F -> list F -> F * F.
Variable fs : string -> option (list string).
Variable stdout : N -> bool.

Lemma wbind_on_ax {A} ax (m : M F unit) (k : unit -> W F A) w log :
  nth_error (axes (current w)) ax = Some log ->
  wbind (on_ax ax m) k w =
  match m log with
  | (Ok u, log') =>
      k u (set_current w {| fig_calls := fig_calls (current w);
                            axes := update (axes (current w)) ax log' |})
  | (Raise e, log') =>
      (Raise e, set_current w {| fig_calls := fig_calls (current w);
                                 axes := update (axes (current w)) ax log' |})
  end.
Proof.
  intros Hn. unfold wbind, on_ax. rewrite Hn.
  destruct (m log) as [[u|e] l]; reflexivity.
Qed.

Lemma wbind_assoc {A B C} (m : W F A) (f : A -> W F B) (g : B -> W F C) w :
  wbind (wbind m f) g w = wbind m (fun a => wbind (f a) g) w.
Proof.
  unfold wbind. destruct (m w) as [[a|e] w']; reflexivity.
Qed.

Lemma first_failure_app l1 l2 :
  first_failure float numpy fs (l1 ++ l2) =
  match first_failure float numpy fs l1 with
  | Some e => Some e
  | None => first_failure float numpy fs l2
  end.
Proof.
  induction l1 as [|item l1 IH]; cbn [first_failure app]; [reflexivity|].
  destruct (failure float numpy fs item); [reflexivity|exact IH].
Qed.

Lemma first_failure_none items :
  first_failure float numpy fs items = None <->
  forallb (sound float numpy fs) items = true.
Proof.
  induction items as [|item items IH]; cbn [first_failure forallb];
    [split; reflexivity|].
  destruct (failure float numpy fs item) as [e|] eqn:Hf.
  - split; [discriminate|]. intros Hs. apply andb_true_iff in Hs as [Hs _].
    apply (proj2 (failure_sound float numpy fs item)) in Hs. congruence.
  - apply (proj1 (failure_sound float numpy fs item)) in Hf. rewrite Hf.
    exact IH.
Qed.

Lemma np_array_raises v (rows : list (list F)) e :
  np_array v rows = Raise e -> e = ValueError.
Proof.
  unfold np_array. destruct rows as [|r rs]; [discriminate|].
  destruct (rectangular (r :: rs)); [discriminate|].
  destruct v; [discriminate|congruence].
Qed.

(** The exceptions of the loops are those of [np.array], of the selection
    of a column and of the two dicts. *)
Lemma failure_exn item e :
  failure float numpy fs item = Some e ->
  e = ValueError \/ e = IndexError \/ e = KeyError.
Proof.
  unfold failure. destruct (fs (snd item)) as [lines|]; [|discriminate].
  rewrite read_xvg_unfold.
  destruct (np_array numpy (fst (read_lines float lines))) as [a|e0] eqn:Ha;
    cbn [result_bind].
  - destruct (column a 1) as [y|e1] eqn:Hc.
    + destruct (getitem LABELS (fst item)) as [l|e2] eqn:Hl.
      * destruct (getitem COLORS (fst item)) as [c|e3] eqn:Hk;
          [discriminate|].
        intros [= <-]. right. right. exact (getitem_raises _ _ _ Hk).
      * intros [= <-]. right. right. exact (getitem_raises _ _ _ Hl).
    + intros [= <-]. right. left. exact (column_raises _ _ _ Hc).
  - intros [= <-]. left. exact (np_array_raises _ _ _ Ha).
Qed.

Lemma first_failure_exn items e :
  first_failure float numpy fs items = Some e ->
  e = ValueError \/ e = IndexError \/ e = KeyError.
Proof.
  induction items as [|item items IH]; cbn [first_failure]; [discriminate|].
  destruct (failure float numpy fs item) as [e0|] eqn:Hf; [|exact IH].
  intros [= <-]. exact (failure_exn item e0 Hf).
Qed.

(** *** Printing *)

Lemma encodable_app t t' :
  encodable stdout (t ++ t') = encodable stdout t && encodable stdout t'.
Proof. apply forallb_app. Qed.

Lemma encodable_codes s :
  is_ascii s = true -> encodable stdout (codes s) = true.
Proof.
  unfold is_ascii, encodable, codes. rewrite !forallb_forall.
  intros Hs c Hin. apply in_map_iff in Hin as (a & <- & Ha).
  now rewrite (Hs a Ha).
Qed.

(** A line with a check mark among ASCII characters can be printed exactly
    when [sys.stdout] can encode the check mark. *)
Lemma encodable_check_mark lead tail :
  is_ascii lead = true -> is_ascii tail = true ->
  encodable stdout (codes lead ++ check_mark :: codes tail)
  = stdout check_mark.
Proof.
  intros Hl Ht.
  change (check_mark :: codes tail) with ([check_mark] ++ codes tail).
  rewrite !encodable_app, !encodable_codes by assumption.
  unfold encodable. cbn [forallb]. change (check_mark <? 128)%N with false.
  cbn [orb andb]. now rewrite !andb_true_r.
Qed.

Lemma encodable_saved_line lead name :
  is_ascii lead = true -> is_ascii (String.append " Saved: " name) = true ->
  encodable stdout (saved_line lead name) = stdout check_mark.
Proof. apply encodable_check_mark. Qed.

Lemma wbind_print {A} t (k : unit -> W F A) w :
  wbind (print stdout t) k w =
  if encodable stdout t
  then k tt {| current := current w; saved := saved w;
               console := console w ++ [t] |}
  else (Raise UnicodeEncodeError, w).
Proof. unfold wbind, print. destruct (encodable stdout t); reflexivity. Qed.

Ltac wsimpl :=
  cbn -[plot_with_stats create_box_plots codes saved_line label_RMSD
        label_RMSF label_Rg label_SASA of_int output_png output_svg
        output_stats equals newline first_failure analysis_lines
        closing_lines print encodable check_mark].

(** Runs a [print] that is left. *)
Ltac wprint :=
  lazymatch goal with
  | |- context [wbind (print stdout (codes ?s)) ?k ?w] =>
      rewrite (wbind_print (codes s) k w), (encodable_codes s eq_refl)
  | |- context [wbind (print stdout (saved_line ?lead ?name)) ?k ?w] =>
      rewrite (wbind_print (saved_line lead name) k w),
        (encodable_saved_line lead name eq_refl eq_refl)
  end.

(** Runs the next call on some axes and splits on its outcome. *)
Ltac wstage :=
  lazymatch goal with
  | |- context [wbind (on_ax ?ax ?m) ?k ?w] =>
      rewrite (wbind_on_ax ax m k w []) by reflexivity;
      let r := fresh "r" in
      let l := fresh "l" in
      let E := fresh "E" in
      let Ho := fresh "Ho" in
      destruct (m []) as [r l] eqn:E;
      lazymatch m with
      | plot_with_stats _ _ _ ?d ?yl ?t ?cf ?tn =>
          pose proof (plot_with_stats_outcome float numpy fs d yl t cf tn [])
            as Ho
      | create_box_plots _ _ _ _ ?p ?d ?yl ?cf =>
          pose proof (create_box_plots_outcome float numpy ttest_ind fs p d
                        yl cf []) as Ho
      end;
      rewrite E in Ho; cbn [fst] in Ho; subst r; clear E;
      unfold outcome
  end.

(** Splits on the first failure of the dict of the call just run. *)
Ltac wsplit :=
  match goal with
  | Hf : first_failure float numpy fs ?d = _
    |- context [first_failure float numpy fs ?d] => rewrite !Hf
  | |- context [match first_failure float numpy fs ?d with
                | Some _ => Raise _
                | None => Ok tt
                end] =>
      let Hf := fresh "Hf" in
      destruct (first_failure float numpy fs d) as [?e|] eqn:Hf
  end.

Ltac wrun :=
  repeat (rewrite ?wbind_assoc; wsimpl; first [wprint | wstage; wsplit];
          wsimpl; try solve [eexists; split; reflexivity]).

Lemma create_full_analysis_run (w : World F) :
  match first_failure float numpy fs analysis_items with
  | Some e =>
      exists w',
        create_full_analysis float numpy ttest_ind fs stdout w
        = (Raise e, w') /\
        saved w' = saved w
  | None =>
      exists fig,
        create_full_analysis float numpy ttest_ind fs stdout w =
        (if stdout check_mark then
           (Ok (output_png, output_svg),
            {| current := empty_figure;
               saved := saved w ++ [(output_png, fig); (output_svg, fig)];
               console := console w ++ analysis_lines |})
         else
           (Raise UnicodeEncodeError,
            {| current := fig;
               saved := saved w ++ [(output_png, fig); (output_svg, fig)];
               console := console w ++ progress_lines |})) /\
        List.length (axes fig) = 8
  end.
Proof.
  change analysis_items
    with ((snd (nth 0 files ("", []))) ++ (snd (nth 1 files ("", [])))
          ++ (snd (nth 2 files ("", []))) ++ (snd (nth 3 files ("", [])))
          ++ (snd (nth 4 files ("", [])))).
  cbn [nth files snd]. rewrite !first_failure_app.
  unfold create_full_analysis. wsimpl. wrun.
  eexists. split;
    [destruct (stdout check_mark);
     unfold wret, set_current, analysis_lines, progress_lines;
     cbn [saved console current]; rewrite <- ?app_assoc; reflexivity
    |reflexivity].
Qed.

Lemma create_summary_statistics_run (w : World F) :
  match first_failure float numpy fs summary_items with
  | Some e =>
      exists w',
        create_summary_statistics float numpy ttest_ind fs stdout w
        = (Raise e, w') /\
        saved w' = saved w
  | None =>
      exists fig,
        create_summary_statistics float numpy ttest_ind fs stdout w =
        (if stdout check_mark then
           (Ok output_stats,
            {| current := empty_figure;
               saved := saved w ++ [(output_stats, fig)];
               console := console w ++ [saved_line "" output_stats] |})
         else
           (Raise UnicodeEncodeError,
            {| current := fig;
               saved := saved w ++ [(output_stats, fig)];
               console := console w |})) /\
        List.length (axes fig) = 3
  end.
Proof.
  change summary_items
    with (fst (snd (nth 0 files_dict_summary ("", ([], 0%Z))))
          ++ fst (snd (nth 1 files_dict_summary ("", ([], 0%Z))))
          ++ fst (snd (nth 2 files_dict_summary ("", ([], 0%Z))))).
  cbn [nth files_dict_summary fst snd]. rewrite !first_failure_app.
  unfold create_summary_statistics. wsimpl. wrun.
Qed.

Lemma forallb_incl {A} (f : A -> bool) (l l' : list A) :
  incl l' l -> forallb f l = true -> forallb f l' = true.
Proof.
  intros Hi Hl. rewrite forallb_forall in *. auto.
Qed.

Lemma summary_items_incl : incl summary_items analysis_items.
Proof.
  intros item Hin. cbn in Hin |- *.
  repeat (destruct Hin as [<-|Hin]; [auto 20|]). contradiction.
Qed.

Lemma summary_never_fails_first :
  first_failure float numpy fs analysis_items = None ->
  first_failure float numpy fs summary_items = None.
Proof.
  rewrite !first_failure_none.
  apply forallb_incl, summary_items_incl.
Qed.

Ltac msimpl :=
  cbn -[create_full_analysis create_summary_statistics codes saved_line
        output_png output_svg output_stats equals newline first_failure
        analysis_lines closing_lines opening_lines comparison_line
        analysis_items summary_items print encodable check_mark
        progress_lines].

Lemma main_run (w : World F) :
  match first_failure float numpy fs analysis_items with
  | Some e =>
      exists w',
        main float numpy ttest_ind fs stdout w = (Raise e, w') /\
        saved w' = saved w
  | None =>
      exists fig fig',
        main float numpy ttest_ind fs stdout w =
        if stdout check_mark then
          (Ok tt,
           {| current := empty_figure;
              saved := saved w ++ [(output_png, fig); (output_svg, fig);
                                   (output_stats, fig')];
              console :=
                console w ++ opening_lines ++ analysis_lines
                ++ [comparison_line] ++ [saved_line "" output_stats]
                ++ closing_lines output_png output_svg output_stats |})
        else
          (Raise UnicodeEncodeError,
           {| current := fig;
              saved := saved w ++ [(output_png, fig); (output_svg, fig)];
              console := console w ++ opening_lines ++ progress_lines |})
  end.
Proof.
  pose proof summary_never_fails_first as Hsum.
  unfold main. msimpl. repeat (wprint; msimpl).
  match goal with
  | |- context [wbind (create_full_analysis float numpy ttest_ind fs stdout)
                  _ ?w0] =>
      pose proof (create_full_analysis_run w0) as Hfull
  end.
  destruct (first_failure float numpy fs analysis_items) as [e|].
  - destruct Hfull as (w' & Hfull & Hsaved). exists w'.
    unfold wbind at 1. rewrite Hfull. auto.
  - destruct Hfull as (fig & Hfull & _).
    unfold wbind at 1. rewrite Hfull.
    destruct (stdout check_mark) eqn:Hcm.
    + msimpl. repeat (wprint; msimpl).
      match goal with
      | |- context [wbind
                      (create_summary_statistics float numpy ttest_ind fs
                         stdout) _ ?w0] =>
          pose proof (create_summary_statistics_run w0) as Hstat
      end.
      rewrite (Hsum eq_refl), Hcm in Hstat.
      destruct Hstat as (fig' & Hstat & _).
      exists fig, fig'. unfold wbind at 1. rewrite Hstat. msimpl.
      repeat (wprint; msimpl).
      unfold print.
      match goal with
      | |- context [encodable stdout (codes ?a ++ check_mark :: codes ?b)] =>
          rewrite (encodable_check_mark a b eq_refl eq_refl), Hcm
      end.
      unfold opening_lines, closing_lines, comparison_line.
      cbn [current saved console]. rewrite <- !app_assoc. reflexivity.
    + exists fig, fig. unfold opening_lines.
      cbn [current saved console]. rewrite <- !app_assoc. reflexivity.
Qed.

(** X13: [create_full_analysis] never writes one of its two images without
    the other.  When it returns, it returns the two file names and has
    saved, under these names and in this order, one and the same figure of
    eight axes.  When a file makes it raise ([ValueError], [IndexError] or
    [KeyError]), it has saved nothing.  It raises [UnicodeEncodeError]
    exactly for the check mark that it prints after the images, and then
    both images have been saved all the same. *)
Theorem create_full_analysis_saves_both_or_nothing (w : World F) :
  match create_full_analysis float numpy ttest_ind fs stdout w with
  | (Ok names, w') =>
      names = (output_png, output_svg) /\
      exists fig,
        saved w' = saved w ++ [(output_png, fig); (output_svg, fig)] /\
        List.length (axes fig) = 8
  | (Raise UnicodeEncodeError, w') =>
      stdout check_mark = false /\
      exists fig,
        saved w' = saved w ++ [(output_png, fig); (output_svg, fig)] /\
        List.length (axes fig) = 8
  | (Raise _, w') => saved w' = saved w
  end.
Proof.
  pose proof (create_full_analysis_run w) as Hrun.
  destruct (first_failure float numpy fs analysis_items) as [e|] eqn:Hf.
  - destruct Hrun as (w' & -> & Hsaved).
    destruct (first_failure_exn _ _ Hf) as [->|[->| ->]]; exact Hsaved.
  - destruct Hrun as (fig & -> & Hlen).
    destruct (stdout check_mark); cbn [saved].
    + split; [reflexivity|]. exists fig. auto.
    + split; [reflexivity|]. exists fig. auto.
Qed.

(** X14: [create_full_analysis] returns normally exactly when each of the
    fourteen files it names is absent or can be read as a table of at least
    two columns, and [sys.stdout] can encode the check mark.  Otherwise it
    raises the exception of the first file that cannot be read, in the
    order rmsd, rmsf, rg, sasa, hbonds, and [UnicodeEncodeError] when every
    file can. *)
Theorem create_full_analysis_outcome (w : World F) :
  fst (create_full_analysis float numpy ttest_ind fs stdout w) =
    match first_failure float numpy fs analysis_items with
    | Some e => Raise e
    | None =>
        if stdout check_mark then Ok (output_png, output_svg)
        else Raise UnicodeEncodeError
    end /\
  (fst (create_full_analysis float numpy ttest_ind fs stdout w)
     = Ok (output_png, output_svg) <->
   forallb (sound float numpy fs) analysis_items = true /\
   stdout check_mark = true).
Proof.
  pose proof (create_full_analysis_run w) as Hrun.
  rewrite <- first_failure_none.
  destruct (first_failure float numpy fs analysis_items) as [e|].
  - destruct Hrun as (w' & -> & _). cbn [fst].
    split; [reflexivity|]. split; [discriminate|]. intros [? _]. discriminate.
  - destruct Hrun as (fig & -> & _).
    destruct (stdout check_mark); cbn [fst]; split; try reflexivity.
    + split; auto.
    + split; [discriminate|]. intros [_ ?]. discriminate.
Qed.

(** X15: when [create_full_analysis] has returned normally,
    [create_summary_statistics] returns normally too, on the same files and
    from any state of pyplot: the second figure cannot fail where the first
    one succeeded. *)
Theorem summary_succeeds_after_full_analysis (w w' w2 : World F)
    (names : string * string) :
  create_full_analysis float numpy ttest_ind fs stdout w = (Ok names, w') ->
  exists fig,
    create_summary_statistics float numpy ttest_ind fs stdout w2 =
    (Ok output_stats,
     {| current := empty_figure;
        saved := saved w2 ++ [(output_stats, fig)];
        console := console w2 ++ [saved_line "" output_stats] |}) /\
    List.length (axes fig) = 3.
Proof.
  intros Hfull.
  pose proof (create_full_analysis_run w) as Hrun.
  pose proof summary_never_fails_first as Hsum.
  pose proof (create_summary_statistics_run w2) as Hstat.
  destruct (first_failure float numpy fs analysis_items) as [e|].
  - destruct Hrun as (w1 & Hr & _). congruence.
  - rewrite (Hsum eq_refl) in Hstat. destruct Hrun as (fig & Hr & _).
    destruct (stdout check_mark); [exact Hstat|congruence].
Qed.

(** X16: the main block saves its images in a fixed order and never the
    statistics figure without the two images of the first figure.  When it
    ends normally it has saved the two images of the first figure and the
    image of the second, in this order, and the last lines it has printed
    list these three names.  When a file makes it raise, no image has been
    saved.  When it raises [UnicodeEncodeError], for the check mark, the
    two images of the first figure have been saved and the statistics
    figure has not. *)
Theorem main_saves_images_in_order (w : World F) :
  match main float numpy ttest_ind fs stdout w with
  | (Ok _, w') =>
      (exists fig fig',
          saved w' = saved w ++ [(output_png, fig); (output_svg, fig);
                                 (output_stats, fig')]) /\
      (exists earlier,
          console w' =
          earlier ++ closing_lines output_png output_svg output_stats)
  | (Raise UnicodeEncodeError, w') =>
      stdout check_mark = false /\
      exists fig,
        saved w' = saved w ++ [(output_png, fig); (output_svg, fig)]
  | (Raise _, w') => saved w' = saved w
  end.
Proof.
  pose proof (main_run w) as Hrun.
  destruct (first_failure float numpy fs analysis_items) as [e|] eqn:Hf.
  - destruct Hrun as (w' & -> & Hsaved).
    destruct (first_failure_exn _ _ Hf) as [->|[->| ->]]; exact Hsaved.
  - destruct Hrun as (fig & fig' & ->).
    destruct (stdout check_mark); cbn [saved console].
    + split.
      * exists fig, fig'. reflexivity.
      * eexists. rewrite !app_assoc. reflexivity.
    + split; [reflexivity|]. exists fig. reflexivity.
Qed.

End DriverFacts.

(* ===================================================================== *)
(** ** The files that are read *)
(* ===================================================================== *)

Section Frame.
Context {F : Type} `{Arith F}.
Variable float : string -> option F.
Variable numpy : numpy_version.
Variable ttest_ind : list F -> list F -> F * F.
Variables fs fs' : string -> option (list string).
Variable stdout : N -> bool.

Lemma plot_loop_ext cf tn items :
  (forall item, In item items -> fs (snd item) = fs' (snd item)) ->
  forall all_means log,
    plot_loop float numpy fs cf tn items all_means log
    = plot_loop float numpy fs' cf tn items all_means log.
Proof.
  induction items as [|[key filepath] items IH]; intros Hagree am log;
    [reflexivity|].
  cbn [plot_loop]. unfold bind, plot_series.
  pose proof (Hagree (key, filepath) (or_introl eq_refl)) as E.
  cbn [snd] in E. rewrite <- E.
  match goal with
  | |- match ?m log with _ => _ end = _ =>
      destruct (m log) as [[am'|e] log']; [|reflexivity]
  end.
  apply IH. intros item Hin. apply Hagree. now right.
Qed.

Lemma box_loop_ext cf items :
  (forall item, In item items -> fs (snd item) = fs' (snd item)) ->
  forall st log,
    box_loop float numpy fs cf items st log
    = box_loop float numpy fs' cf items st log.
Proof.
  induction items as [|[key filepath] items IH]; intros Hagree st log;
    [reflexivity|].
  cbn [box_loop]. unfold bind, box_series.
  pose proof (Hagree (key, filepath) (or_introl eq_refl)) as E.
  cbn [snd] in E. rewrite <- E.
  match goal with
  | |- match ?m log with _ => _ end = _ =>
      destruct (m log) as [[st'|e] log']; [|reflexivity]
  end.
  apply IH. intros item Hin. apply Hagree. now right.
Qed.

Lemma plot_with_stats_ext files_dict ylabel title cf tn log :
  (forall item, In item files_dict -> fs (snd item) = fs' (snd item)) ->
  plot_with_stats float numpy fs files_dict ylabel title cf tn log
  = plot_with_stats float numpy fs' files_dict ylabel title cf tn log.
Proof.
  intros Hagree. unfold plot_with_stats, bind.
  now rewrite (plot_loop_ext cf tn files_dict Hagree).
Qed.

Lemma create_box_plots_ext param_name files_dict ylabel cf log :
  (forall item, In item files_dict -> fs (snd item) = fs' (snd item)) ->
  create_box_plots float numpy ttest_ind fs param_name files_dict ylabel cf
    log
  = create_box_plots float numpy ttest_ind fs' param_name files_dict ylabel
      cf log.
Proof.
  intros Hagree. unfold create_box_plots, bind.
  now rewrite (box_loop_ext cf files_dict Hagree).
Qed.

(** X12: [plot_with_stats] and [create_box_plots] read no file but those
    of [files_dict]: on two file systems that agree on these paths they do
    the same. *)
Theorem summarizer_reads_only_files_dict (param_name ylabel title : string)
    (files_dict : list (string * string)) (cf : F) (tn : bool)
    (log : list (call F)) :
  (forall item, In item files_dict -> fs (snd item) = fs' (snd item)) ->
  plot_with_stats float numpy fs files_dict ylabel title cf tn log
  = plot_with_stats float numpy fs' files_dict ylabel title cf tn log /\
  create_box_plots float numpy ttest_ind fs param_name files_dict ylabel cf
    log
  = create_box_plots float numpy ttest_ind fs' param_name files_dict ylabel
      cf log.
Proof.
  intros Hagree.
  split; [now apply plot_with_stats_ext|now apply create_box_plots_ext].
Qed.

Hypothesis Hnamed : forall path, In path named_files -> fs path = fs' path.

Ltac fsimpl :=
  cbn -[plot_with_stats create_box_plots codes saved_line label_RMSD
        label_RMSF label_Rg label_SASA of_int output_png output_svg
        output_stats equals newline named_files print encodable].

(** The paths of the dict of the call at hand are named. *)
Ltac named :=
  let item := fresh "item" in
  let Hin := fresh "Hin" in
  intros item Hin; apply Hnamed; cbn in Hin;
  repeat (destruct Hin as [<-|Hin]; [cbn; auto 20|]); contradiction.

Ltac fstage :=
  lazymatch goal with
  | |- wbind (on_ax ?ax ?m) ?k ?w = wbind (on_ax ?ax ?m') ?k' ?w =>
      rewrite (wbind_on_ax ax m k w []) by reflexivity;
      rewrite (wbind_on_ax ax m' k' w []) by reflexivity;
      replace (m' []) with (m [])
        by (first [apply plot_with_stats_ext|apply create_box_plots_ext];
            named);
      destruct (m []) as [[[]|?e] ?l]; [|reflexivity]
  end.

Ltac fprint :=
  lazymatch goal with
  | |- wbind (print stdout ?t) ?k ?w = wbind (print stdout ?t) ?k' ?w =>
      rewrite (wbind_print stdout t k w), (wbind_print stdout t k' w);
      destruct (encodable stdout t); [|reflexivity]
  end.

Ltac frun :=
  repeat (rewrite ?wbind_assoc; fsimpl; first [fprint | fstage]);
  reflexivity.

Lemma create_full_analysis_ext (w : World F) :
  create_full_analysis float numpy ttest_ind fs stdout w
  = create_full_analysis float numpy ttest_ind fs' stdout w.
Proof. unfold create_full_analysis. fsimpl. frun. Qed.

Lemma create_summary_statistics_ext (w : World F) :
  create_summary_statistics float numpy ttest_ind fs stdout w
  = create_summary_statistics float numpy ttest_ind fs' stdout w.
Proof. unfold create_summary_statistics. fsimpl. frun. Qed.

Lemma wbind_ext {A B} (m m' : W F A) (k k' : A -> W F B) w :
  m w = m' w -> (forall a w1, k a w1 = k' a w1) ->
  wbind m k w = wbind m' k' w.
Proof.
  intros Hm Hk. unfold wbind. rewrite Hm.
  destruct (m' w) as [[a|e] w1]; [apply Hk|reflexivity].
Qed.

Lemma main_ext (w : World F) :
  main float numpy ttest_ind fs stdout w
  = main float numpy ttest_ind fs' stdout w.
Proof.
  unfold main.
  do 3 (apply wbind_ext; [reflexivity|intros [] ?w]).
  apply wbind_ext; [apply create_full_analysis_ext|].
  intros [png1 svg1] w_full. cbv beta iota.
  apply wbind_ext; [reflexivity|intros [] w_line].
  apply wbind_ext; [apply create_summary_statistics_ext|reflexivity].
Qed.

End Frame.

(** X17: the program reads no file but the fourteen it names: on two file
    systems that agree on these paths, [create_full_analysis],
    [create_summary_statistics] and the main block do the same, whatever
    other files exist. *)
Theorem program_reads_only_named_files {F : Type} `{Arith F}
    (float : string -> option F) (numpy : numpy_version)
    (ttest_ind : list F -> list F -> F * F)
    (fs fs' : string -> option (list string)) (stdout : N -> bool)
    (w : World F) :
  (forall path, In path named_files -> fs path = fs' path) ->
  create_full_analysis float numpy ttest_ind fs stdout w
  = create_full_analysis float numpy ttest_ind fs' stdout w /\
  create_summary_statistics float numpy ttest_ind fs stdout w
  = create_summary_statistics float numpy ttest_ind fs' stdout w /\
  main float numpy ttest_ind fs stdout w
  = main float numpy ttest_ind fs' stdout w.
Proof.
  intros Hnamed. split; [|split].
  - now apply create_full_analysis_ext.
  - now apply create_summary_statistics_ext.
  - now apply main_ext.
Qed.

(* ===================================================================== *)
(** ** The further theorems at concrete inputs *)
(* ===================================================================== *)

(** The theorem of X2 on two lines and their padded copies. *)
Lemma read_xvg_ignores_padding_witness :
  Forall2 padded bare_lines padded_lines /\
  read_xvg B64.float since_1_24 padded_lines
  = read_xvg B64.float since_1_24 bare_lines.
Proof.
  assert (HF : Forall2 padded bare_lines padded_lines).
  { constructor; [|constructor; [|constructor]].
    - exists "  ", (String "009"%char " "). repeat split; reflexivity.
    - exists "", "". repeat split; reflexivity. }
  split; [exact HF|].
  exact (read_xvg_ignores_padding B64.float since_1_24 bare_lines
           padded_lines HF).
Defined.

(** The theorem of X4 on the file of four rows. *)
Lemma read_xvg_table_shape_witness :
  read_xvg B64.float since_1_24 four_rows
    = Ok (table_of four_rows, metadata_of four_rows) /\
  shape (table_of four_rows) = [4; 2] /\
  exists x, column (table_of four_rows) 0 = Ok x /\ List.length x = 4.
Proof.
  assert (Hrd : read_xvg B64.float since_1_24 four_rows
                = Ok (table_of four_rows, metadata_of four_rows))
    by (vm_compute; reflexivity).
  split; [exact Hrd|]. split; [vm_compute; reflexivity|].
  pose proof (read_xvg_table_shape B64.float since_1_24 four_rows
                (table_of four_rows) (metadata_of four_rows) Hrd) as Hs.
  destruct (table_of four_rows) as [xs|ncols rows|rows] eqn:Ht;
    [discriminate|idtac|discriminate].
  destruct Hs as (_ & _ & _ & _ & x & Hx & Hlen).
  exists x. split; [exact Hx|]. rewrite Hlen.
  assert (E : List.length rows = nrows (table_of four_rows))
    by (rewrite Ht; reflexivity).
  rewrite E. vm_compute. reflexivity.
Defined.

(** The theorem of X6 when the file of the test run has no numeric line. *)
Lemma create_box_plots_raises_before_drawing_witness :
  fst (create_box_plots B64.float since_1_24 some_ttest_ind fs_empty "RMSD"
         files_rmsd "RMSD" ten [ax_grid]) = Raise IndexError /\
  snd (create_box_plots B64.float since_1_24 some_ttest_ind fs_empty "RMSD"
         files_rmsd "RMSD" ten [ax_grid]) = [ax_grid].
Proof.
  assert (Hr : fst (create_box_plots B64.float since_1_24 some_ttest_ind
                      fs_empty "RMSD" files_rmsd "RMSD" ten [ax_grid])
               = Raise IndexError) by (vm_compute; reflexivity).
  split; [exact Hr|].
  exact (create_box_plots_raises_before_drawing B64.float since_1_24
           some_ttest_ind fs_empty "RMSD" "RMSD" files_rmsd ten [ax_grid]
           IndexError Hr).
Defined.

(** The theorem of X8 on a dict whose second key has no label. *)
Lemma unknown_key_raises_KeyError_witness :
  forallb (sound B64.float since_1_24 fs_two) [("apo", "rmsd_apo.xvg")]
    = true /\
  fs_two "rmsd_test.xvg" = Some four_rows /\
  read_xvg B64.float since_1_24 four_rows
    = Ok (table_of four_rows, metadata_of four_rows) /\
  column (table_of four_rows) 1 = Ok (y_of four_rows) /\
  ~ In "control" (map fst LABELS) /\
  raises (create_box_plots B64.float since_1_24 some_ttest_ind fs_two "RMSD"
            files_control "RMSD" ten) KeyError [] /\
  raises (plot_with_stats B64.float since_1_24 fs_two files_control "RMSD"
            "(A)" ten true)
    KeyError
    (flat_map (plot_calls B64.float since_1_24 fs_two ten true)
       [("apo", "rmsd_apo.xvg")]).
Proof.
  assert (Hs : forallb (sound B64.float since_1_24 fs_two)
                 [("apo", "rmsd_apo.xvg")] = true)
    by (vm_compute; reflexivity).
  assert (Hrd : read_xvg B64.float since_1_24 four_rows
                = Ok (table_of four_rows, metadata_of four_rows))
    by (vm_compute; reflexivity).
  assert (Hy : column (table_of four_rows) 1 = Ok (y_of four_rows))
    by (vm_compute; reflexivity).
  assert (Hk : ~ In "control" (map fst LABELS)).
  { cbn. intros [E|[E|[E|[]]]]; discriminate. }
  split; [exact Hs|]. split; [reflexivity|]. split; [exact Hrd|].
  split; [exact Hy|]. split; [exact Hk|].
  exact (unknown_key_raises_KeyError B64.float since_1_24 some_ttest_ind
           fs_two "RMSD" "RMSD" "(A)" ten true files_control
           [("apo", "rmsd_apo.xvg")] [] "control" "rmsd_test.xvg" four_rows
           (table_of four_rows) (metadata_of four_rows) (y_of four_rows)
           eq_refl Hs eq_refl Hrd Hy Hk).
Defined.

(** The theorem of X9 when the file of the test run has one column. *)
Lemma no_second_column_raises_IndexError_witness :
  forallb (sound B64.float since_1_24 fs_single) [("apo", "rmsd_apo.xvg")]
    = true /\
  fs_single "rmsd_test.xvg" = Some one_column /\
  read_xvg B64.float since_1_24 one_column
    = Ok (table_of one_column, metadata_of one_column) /\
  shape (table_of one_column) = [3; 1] /\
  raises (create_box_plots B64.float since_1_24 some_ttest_ind fs_single
            "RMSD" files_rmsd "RMSD" ten) IndexError [] /\
  raises (plot_with_stats B64.float since_1_24 fs_single files_rmsd "RMSD"
            "(A)" ten true)
    IndexError
    (flat_map (plot_calls B64.float since_1_24 fs_single ten true)
       [("apo", "rmsd_apo.xvg")]).
Proof.
  assert (Hs : forallb (sound B64.float since_1_24 fs_single)
                 [("apo", "rmsd_apo.xvg")] = true)
    by (vm_compute; reflexivity).
  assert (Hrd : read_xvg B64.float since_1_24 one_column
                = Ok (table_of one_column, metadata_of one_column))
    by (vm_compute; reflexivity).
  assert (Hsh : shape (table_of one_column) = [3; 1])
    by (vm_compute; reflexivity).
  assert (Hlt : nth 1 (shape (table_of one_column)) 0 < 2)
    by (rewrite Hsh; cbn; lia).
  split; [exact Hs|]. split; [reflexivity|]. split; [exact Hrd|].
  split; [exact Hsh|].
  exact (no_second_column_raises_IndexError B64.float since_1_24
           some_ttest_ind fs_single "RMSD" "RMSD" "(A)" ten true files_rmsd
           [("apo", "rmsd_apo.xvg")] [("standard", "rmsd_standard.xvg")]
           ("test", "rmsd_test.xvg") one_column (table_of one_column)
           (metadata_of one_column) eq_refl Hs eq_refl Hrd Hlt).
Defined.



Lemma fs_two_more_named path :
  In path named_files -> fs_two path = fs_two_more path.
Proof.
  intros Hin. unfold fs_two_more.
  destruct (String.eqb_spec path "notes.txt") as [->|]; [|reflexivity].
  cbn in Hin. repeat (destruct Hin as [Hin|Hin]; [discriminate|]).
  contradiction.
Defined.

(** The theorem of X12 on two file systems that differ by a file that
    [files_dict] does not name. *)
Lemma summarizer_reads_only_files_dict_witness :
  (forall item, In item files_rmsd ->
                fs_two (snd item) = fs_two_more (snd item)) /\
  plot_with_stats B64.float since_1_24 fs_two files_rmsd "RMSD" "(A)" ten
    true []
  = plot_with_stats B64.float since_1_24 fs_two_more files_rmsd "RMSD" "(A)"
      ten true [].
Proof.
  assert (Ha : forall item, In item files_rmsd ->
                            fs_two (snd item) = fs_two_more (snd item)).
  { intros item Hin. cbn in Hin.
    repeat (destruct Hin as [<-|Hin]; [reflexivity|]). contradiction. }
  split; [exact Ha|].
  exact (proj1 (summarizer_reads_only_files_dict B64.float since_1_24
                  some_ttest_ind fs_two fs_two_more "RMSD" "RMSD" "(A)"
                  files_rmsd ten true [] Ha)).
Defined.

(** The theorem of X15 when the apo and the test runs of the RMSD exist
    and no other file does. *)
Lemma summary_succeeds_after_full_analysis_witness :
  fst (create_full_analysis B64.float since_1_24 some_ttest_ind fs_two
         utf_8 empty_world) = Ok (output_png, output_svg) /\
  fst (create_summary_statistics B64.float since_1_24 some_ttest_ind fs_two
         utf_8 empty_world) = Ok output_stats.
Proof.
  destruct (create_full_analysis B64.float since_1_24 some_ttest_ind fs_two
              utf_8 empty_world) as [[names|e] w'] eqn:Hfull;
    [|apply (f_equal fst) in Hfull; vm_compute in Hfull; discriminate].
  split; [apply (f_equal fst) in Hfull; vm_compute in Hfull; exact
            (eq_sym Hfull)|].
  destruct (summary_succeeds_after_full_analysis B64.float since_1_24
              some_ttest_ind fs_two utf_8 empty_world w' empty_world names
              Hfull)
    as (fig & -> & _).
  reflexivity.
Defined.

(** The theorem of X17 on two file systems that differ by a file that the
    program does not name. *)
Lemma program_reads_only_named_files_witness :
  (forall path, In path named_files -> fs_two path = fs_two_more path) /\
  main B64.float since_1_24 some_ttest_ind fs_two latin_1 empty_world
  = main B64.float since_1_24 some_ttest_ind fs_two_more latin_1
      empty_world.
Proof.
  split; [exact fs_two_more_named|].
  exact (proj2 (proj2 (program_reads_only_named_files B64.float since_1_24
                         some_ttest_ind fs_two fs_two_more latin_1
                         empty_world fs_two_more_named))).
Defined.

(** On a stdout in Latin-1 the first driver raises at the check mark, after
    it has saved both images, and so does the main block; on a stdout in
    UTF-8 the main block saves its three images. *)
Example check_mark_on_latin_1 :
  let full :=
    create_full_analysis B64.float since_1_24 some_ttest_ind fs_two latin_1
      empty_world in
  let run :=
    main B64.float since_1_24 some_ttest_ind fs_two latin_1 empty_world in
  let run_utf_8 :=
    main B64.float since_1_24 some_ttest_ind fs_two utf_8 empty_world in
  fst full = Raise UnicodeEncodeError /\
  map fst (saved (snd full)) = [output_png; output_svg] /\
  fst run = Raise UnicodeEncodeError /\
  map fst (saved (snd run)) = [output_png; output_svg] /\
  fst run_utf_8 = Ok tt /\
  map fst (saved (snd run_utf_8)) = [output_png; output_svg; output_stats].
Proof. repeat split; vm_compute; reflexivity. Qed.
